(** * createCoplanarPolygonOutlineGeometry.js

    A shallow embedding of the Cesium worker module
    [Workers/createCoplanarPolygonOutlineGeometry.js] and the properties of
    its functions: [createGeometryFromPositions], the
    [CoplanarPolygonOutlineGeometry] constructor, [fromPositions], [pack],
    [unpack], [createGeometry] and the worker entry point.

    The module is an AMD module: a function of the modules it imports.  The
    imports whose code is not part of the file are the fields of the class
    [Imports] below, so every definition is a function of them, as in the
    source. *)

From Stdlib Require Import NArith.
From stdpp Require Import base option list strings.

Set Default Proof Using "Type".

(** ** JavaScript values of the module *)

(** What a call completes with: a value, or a thrown exception.  The third
    case is for the model only: a library routine was used outside of what is
    known of it (a buffer that holds no packed hierarchy). *)
Inductive Exception :=
  | DeveloperError (message : string)
  | TypeError (message : string).

Inductive Completion (A : Type) :=
  | Normal (a : A)
  | Throw (e : Exception)
  | Undetermined.
Arguments Normal {A} a.
Arguments Throw {A} e.
Arguments Undetermined {A}.

Definition bindC {A B} (c : Completion A) (k : A → Completion B) : Completion B :=
  match c with
  | Normal a => k a
  | Throw e => Throw e
  | Undetermined => Undetermined
  end.

Notation "'let!' x ':=' c 'in' k" := (bindC c (fun x => k))
  (at level 10, x pattern, c at level 100, k at level 200).

(** A function that may read and assign the properties of an object it is
    given: it takes the object as it is before the call and gives, with what
    it completes with, the object as it is after the call. *)
Definition Method (S A : Type) : Type := S → Completion A * S.

Definition ret {S A} (a : A) : Method S A := fun s => (Normal a, s).

Definition throw {S A} (e : Exception) : Method S A := fun s => (Throw e, s).

Definition bindM {S A B} (m : Method S A) (k : A → Method S B) : Method S B :=
  fun s =>
    match m s with
    | (Normal a, s) => k a s
    | (Throw e, s) => (Throw e, s)
    | (Undetermined, s) => (Undetermined, s)
    end.

(** [o.p] and [o.p = v] *)
Definition read {S A} (p : S → A) : Method S A := fun s => (Normal (p s), s).

Definition assign {S} (upd : S → S) : Method S unit := fun s => (Normal tt, upd s).

Notation "'do' x '<-' m ';' k" := (bindM m (fun x => k))
  (at level 10, x pattern, m at level 100, k at level 200).

(** [ComponentDatatype] and [PrimitiveType] are WebGL enumerations. *)
Inductive ComponentDatatype :=
  BYTE | UNSIGNED_BYTE | SHORT | UNSIGNED_SHORT | INT | UNSIGNED_INT | FLOAT | DOUBLE.

Inductive PrimitiveType :=
  POINTS | LINES | LINE_LOOP | LINE_STRIP | TRIANGLES | TRIANGLE_STRIP | TRIANGLE_FAN.

(** An unsigned integer typed array ([Uint16Array], [Uint32Array]): the
    elements hold [bits] bits each; a store keeps the value modulo [2^bits]
    and a store out of range does nothing. *)
Record UintArray := { bits : N; elems : list N }.

Definition uint_store (a : UintArray) (i : nat) (v : N) : UintArray :=
  {| bits := bits a; elems := <[i := (v mod 2 ^ bits a)%N]> (elems a) |}.

Section Values.
Context {number BoundingSphere : Type}.

Record Cartesian3 := { x : number; y : number; z : number }.

(** A polygon hierarchy is a plain object: [positions] and [holes] may
    each be absent ([undefined]), as in [{ positions: p }] and [{}]. *)
#[local] Unset Elimination Schemes.
Inductive PolygonHierarchy := Hierarchy {
  positions : option (list Cartesian3);
  holes : option (list PolygonHierarchy)
}.
#[local] Set Elimination Schemes.

Record GeometryAttribute := {
  componentDatatype : ComponentDatatype;
  componentsPerAttribute : nat;
  values : list number   (* a Float64Array *)
}.

Record GeometryAttributes := { position : option GeometryAttribute }.

Record Geometry := {
  attributes : GeometryAttributes;
  indices : UintArray;
  primitiveType : PrimitiveType;
  boundingSphere : option BoundingSphere
}.

Record GeometryInstance := { geometry : Geometry }.
End Values.
Arguments Cartesian3 : clear implicits.
Arguments PolygonHierarchy : clear implicits.
Arguments GeometryAttribute : clear implicits.
Arguments GeometryAttributes : clear implicits.
Arguments Geometry : clear implicits.
Arguments GeometryInstance : clear implicits.

(** A JavaScript array of numbers.  An element is a number or [undefined]
    ([None]); reading past the end gives [undefined] and writing past the
    end extends the array. *)
Abbreviation jsarray number := (list (option number)) (only parsing).

Definition array_get {number} (array : jsarray number) (i : nat) : option number :=
  default None (array !! i).

Definition array_set {number} (array : jsarray number) (i : nat) (v : option number) :
    jsarray number :=
  if decide (i < length array) then <[i := v]> array
  else array ++ replicate (i - length array) None ++ [v].

(** ** The imported modules *)

(** The routines of the imported modules that the file calls, and the two
    conversions between array lengths and numbers.  The routines are taken
    as functions: they compute a value from their arguments and leave the
    arguments as they are. *)
Class Imports (number : Type) := {
  (** numbers that are array lengths and indices *)
  num_of_nat : nat → number;
  nat_of_num : number → nat;
  BoundingSphere : Type;
  Ellipsoid : Type;
  (** [IndexDatatype.createTypedArray(numberOfVertices, length)] *)
  createTypedArray : nat → nat → UintArray;
  (** [Cartesian3.equalsEpsilon], passed on to [arrayRemoveDuplicates] *)
  equalsEpsilon : Cartesian3 number → Cartesian3 number → bool;
  (** [arrayRemoveDuplicates(values, equalsEpsilon, wrapAround)]; the result
      is an array or [undefined] *)
  arrayRemoveDuplicates :
    option (list (Cartesian3 number)) →
    (Cartesian3 number → Cartesian3 number → bool) → bool →
    option (list (Cartesian3 number));
  (** [CoplanarPolygonGeometryLibrary.validOutline(positions)] *)
  validOutline : list (Cartesian3 number) → bool;
  (** [PolygonGeometryLibrary.polygonOutlinesFromHierarchy(hierarchy, scaleToEllipsoidSurface)] *)
  polygonOutlinesFromHierarchy :
    PolygonHierarchy number → bool → list (list (Cartesian3 number));
  (** [GeometryPipeline.combineInstances(instances)] *)
  combineInstances :
    list (GeometryInstance number BoundingSphere) → list (Geometry number BoundingSphere);
  (** [BoundingSphere.fromPoints(positions)] *)
  fromPoints : option (list (Cartesian3 number)) → BoundingSphere;
  (** [Ellipsoid.clone(ellipsoid)] *)
  Ellipsoid_clone : option Ellipsoid → option Ellipsoid
}.

(** ** The module *)

Section Worker.
Context {number : Type} `{!Imports number}.

(** *** createGeometryFromPositions *)

(** The variables of the [for] loop. *)
Record LoopState := {
  flatPositions : list number;
  loop_indices : UintArray;
  positionIndex : nat;
  index : nat
}.

(** One turn of the loop, for [position = positions[i]]. *)
Definition loop_body (len i : nat) (position : Cartesian3 number) (s : LoopState) : LoopState :=
  let fp := flatPositions s in
  let pi := positionIndex s in
  let fp := <[pi := x position]> fp in
  let pi := S pi in
  let fp := <[pi := y position]> fp in
  let pi := S pi in
  let fp := <[pi := z position]> fp in
  let pi := S pi in
  let ix := loop_indices s in
  let idx := index s in
  let ix := uint_store ix idx (N.of_nat i) in
  let idx := S idx in
  let ix := uint_store ix idx (N.of_nat ((i + 1) mod len)) in
  let idx := S idx in
  {| flatPositions := fp; loop_indices := ix; positionIndex := pi; index := idx |}.

(** [for (var i = ...; i < length; i++)], with [rest] the elements of
    [positions] from [i] on. *)
Fixpoint loop (len : nat) (rest : list (Cartesian3 number)) (i : nat) (s : LoopState) : LoopState :=
  match rest with
  | [] => s
  | position :: rest => loop len rest (S i) (loop_body len i position s)
  end.

Definition createGeometryFromPositions (positions : list (Cartesian3 number)) :
    Geometry number BoundingSphere :=
  let len := length positions in
  let s0 := {| flatPositions := replicate (len * 3) (num_of_nat 0);
               loop_indices := createTypedArray len (len * 2);
               positionIndex := 0;
               index := 0 |} in
  let s := loop len positions 0 s0 in
  let attrs :=
    {| position := Some {| componentDatatype := DOUBLE;
                           componentsPerAttribute := 3;
                           values := flatPositions s |} |} in
  {| attributes := attrs;
     indices := loop_indices s;
     primitiveType := LINES;
     boundingSphere := None |}.

(** *** Helpers of [when] and [RuntimeError] *)

(** Modelled from the spec: [when.defaultValue] is not part of the file; an
    absent value is replaced by the default.  ([when.defined(v)] is the
    test for [v] being [Some].) *)
Definition defaultValue {A} (a : option A) (b : A) : A :=
  match a with Some v => v | None => b end.

(** Modelled from the spec: [RuntimeError.Check.defined] is not part of the
    file; a missing required argument fails at once with a developer
    error, a present one passes. *)
Definition Check_defined {A} (name : string) (test : option A) : Completion A :=
  match test with
  | Some v => Normal v
  | None => Throw (DeveloperError name)
  end.

(** *** The packed form of a hierarchy ([PolygonGeometryLibrary]) *)

(** Modelled from the spec: [Cartesian3.pack] is not part of the file; a
    point takes three numbers, x, y and z. *)
Definition Cartesian3_pack (value : Cartesian3 number) (array : jsarray number)
    (startingIndex : nat) : jsarray number :=
  let array := array_set array startingIndex (Some (x value)) in
  let array := array_set array (startingIndex + 1) (Some (y value)) in
  array_set array (startingIndex + 2) (Some (z value)).

(** Modelled from the spec: [Cartesian3.unpack] is not part of the file; it
    reads back the three numbers of a point.  Nothing is known of it when
    one of them is [undefined]. *)
Definition Cartesian3_unpack (array : jsarray number) (startingIndex : nat) :
    option (Cartesian3 number) :=
  vx ← array_get array startingIndex;
  vy ← array_get array (startingIndex + 1);
  vz ← array_get array (startingIndex + 2);
  Some {| x := vx; y := vy; z := vz |}.

(** The points of a ring, packed one after the other. *)
Fixpoint pack_positions (ps : list (Cartesian3 number)) (array : jsarray number)
    (startingIndex : nat) : jsarray number * nat :=
  match ps with
  | [] => (array, startingIndex)
  | p :: ps => pack_positions ps (Cartesian3_pack p array startingIndex) (startingIndex + 3)
  end.

(** The holes of a hierarchy, packed one after the other by [packHole]. *)
Fixpoint pack_holes
    (packHole : PolygonHierarchy number → jsarray number → nat → jsarray number * nat)
    (hs : list (PolygonHierarchy number)) (array : jsarray number) (startingIndex : nat) :
    jsarray number * nat :=
  match hs with
  | [] => (array, startingIndex)
  | h :: hs =>
      let '(array, startingIndex) := packHole h array startingIndex in
      pack_holes packHole hs array startingIndex
  end.

(** Modelled from the spec: [PolygonGeometryLibrary.packPolygonHierarchy]
    is not part of the file.  It writes, from [startingIndex] on, the
    number of points of the outer ring, their coordinates (three numbers
    per point), the number of holes and then each hole in the same way,
    and returns the index after the last number written.  An absent
    [positions] or [holes] counts as empty. *)
Fixpoint packPolygonHierarchy (polygonHierarchy : PolygonHierarchy number)
    (array : jsarray number) (startingIndex : nat) : jsarray number * nat :=
  let ps := default [] (positions polygonHierarchy) in
  let array := array_set array startingIndex (Some (num_of_nat (length ps))) in
  let '(array, startingIndex) := pack_positions ps array (S startingIndex) in
  match holes polygonHierarchy with
  | None => (array_set array startingIndex (Some (num_of_nat 0)), S startingIndex)
  | Some hs =>
      let array := array_set array startingIndex (Some (num_of_nat (length hs))) in
      pack_holes packPolygonHierarchy hs array (S startingIndex)
  end.

(** Modelled from the spec: [PolygonGeometryLibrary.computeHierarchyPackedLength]
    is not part of the file; it is the number of numbers that
    [packPolygonHierarchy] writes: two counts and three numbers per point
    for the outer ring, and the same for every hole. *)
Fixpoint computeHierarchyPackedLength (polygonHierarchy : PolygonHierarchy number) : nat :=
  2 + 3 * length (default [] (positions polygonHierarchy)) +
  match holes polygonHierarchy with
  | None => 0
  | Some hs => foldr (fun h n => computeHierarchyPackedLength h + n) 0 hs
  end.

Fixpoint unpack_positions (n : nat) (array : jsarray number) (startingIndex : nat) :
    option (list (Cartesian3 number) * nat) :=
  match n with
  | 0 => Some ([], startingIndex)
  | S n =>
      p ← Cartesian3_unpack array startingIndex;
      '(ps, i) ← unpack_positions n array (startingIndex + 3);
      Some (p :: ps, i)
  end.

Fixpoint unpack_holes
    (unpackHole : jsarray number → nat → option (PolygonHierarchy number * nat))
    (n : nat) (array : jsarray number) (startingIndex : nat) :
    option (list (PolygonHierarchy number) * nat) :=
  match n with
  | 0 => Some ([], startingIndex)
  | S n =>
      '(h, i) ← unpackHole array startingIndex;
      '(hs, j) ← unpack_holes unpackHole n array i;
      Some (h :: hs, j)
  end.

(** The reader of a packed hierarchy, with [fuel] bounding the depth of
    the holes inside holes.  [None] when the fuel runs out or when a number
    it needs is [undefined]. *)
Fixpoint unpackPolygonHierarchy_fuel (fuel : nat) (array : jsarray number)
    (startingIndex : nat) : option (PolygonHierarchy number * nat) :=
  match fuel with
  | 0 => None
  | S fuel =>
      positionsLength ← array_get array startingIndex;
      '(ps, i) ← unpack_positions (nat_of_num positionsLength) array (S startingIndex);
      holesLength ← array_get array i;
      '(hs, j) ← unpack_holes (unpackPolygonHierarchy_fuel fuel)
                   (nat_of_num holesLength) array (S i);
      Some ({| positions := Some ps; holes := Some hs |}, j)
  end.

(** Modelled from the spec: [PolygonGeometryLibrary.unpackPolygonHierarchy]
    is not part of the file.  It is the inverse of [packPolygonHierarchy]:
    it reads the hierarchy back from [startingIndex] on and returns it with
    the index after the last number read (the [startingIndex] property of
    the object it returns).  A hole inside a hole needs a hole count that
    is stored in the array, so the holes are nested less deep than the
    array is long, which is the fuel given. *)
Definition unpackPolygonHierarchy (array : jsarray number) (startingIndex : nat) :
    option (PolygonHierarchy number * nat) :=
  unpackPolygonHierarchy_fuel (length array) array startingIndex.

(** *** CoplanarPolygonOutlineGeometry *)

(** The options objects of the constructor and of [fromPositions]. *)
Record Options := {
  opt_polygonHierarchy : option (PolygonHierarchy number);
  opt_positions : option (list (Cartesian3 number))
}.

Definition EMPTY_OBJECT : Options :=
  {| opt_polygonHierarchy := None; opt_positions := None |}.

(** An instance.  [packedLength] is a number or [undefined]; [_ellipsoid]
    is [None] when the object has no such property and [Some v] when it
    has it with value [v], which may be [undefined]. *)
Record CoplanarPolygonOutlineGeometry := {
  _polygonHierarchy : PolygonHierarchy number;
  _workerName : string;
  packedLength : option number;
  _ellipsoid : option (option Ellipsoid)
}.

(** [new CoplanarPolygonOutlineGeometry(options)] *)
Definition new_CoplanarPolygonOutlineGeometry (options : option Options) :
    Completion CoplanarPolygonOutlineGeometry :=
  let options := defaultValue options EMPTY_OBJECT in
  let polygonHierarchy := opt_polygonHierarchy options in
  let! polygonHierarchy := Check_defined "options.polygonHierarchy" polygonHierarchy in
  Normal {| _polygonHierarchy := polygonHierarchy;
            _workerName := "createCoplanarPolygonOutlineGeometry";
            packedLength :=
              Some (num_of_nat (computeHierarchyPackedLength polygonHierarchy + 1));
            _ellipsoid := None |}.

Definition fromPositions (options : option Options) :
    Completion CoplanarPolygonOutlineGeometry :=
  let options := defaultValue options EMPTY_OBJECT in
  let! ps := Check_defined "options.positions" (opt_positions options) in
  let newOptions :=
    {| opt_polygonHierarchy := Some {| positions := Some ps; holes := None |};
       opt_positions := None |} in
  new_CoplanarPolygonOutlineGeometry (Some newOptions).

(** [pack] updates [array] in place and returns it: the result is the
    array after the call.  The two debug checks ask for an object and for
    an array, which the arguments are. *)
Definition pack (value : CoplanarPolygonOutlineGeometry) (array : jsarray number)
    (startingIndex : option nat) : jsarray number :=
  let startingIndex := defaultValue startingIndex 0 in
  let '(array, startingIndex) :=
    packPolygonHierarchy (_polygonHierarchy value) array startingIndex in
  let array := array_set array startingIndex (packedLength value) in
  array.

Definition scratchOptions : Options :=
  {| opt_polygonHierarchy := Some {| positions := None; holes := None |};
     opt_positions := None |}.

(** [unpack] fills [result] when it is given and a new instance otherwise;
    the completion holds the object it returns. *)
Definition unpack (array : jsarray number) (startingIndex : option nat)
    (result : option CoplanarPolygonOutlineGeometry) :
    Completion CoplanarPolygonOutlineGeometry :=
  let startingIndex := defaultValue startingIndex 0 in
  match unpackPolygonHierarchy array startingIndex with
  | None => Undetermined
  | Some (polygonHierarchy, startingIndex) =>
      let packedLength' := array_get array startingIndex in
      let! result :=
        match result with
        | None => new_CoplanarPolygonOutlineGeometry (Some scratchOptions)
        | Some result => Normal result
        end in
      Normal {| _polygonHierarchy := polygonHierarchy;
                _workerName := _workerName result;
                packedLength := packedLength';
                _ellipsoid := _ellipsoid result |}
  end.

(** *** createGeometry *)

(** [createGeometry(polygonGeometry)], as a method of [polygonGeometry]:
    [outerPositions] and the other variables are local. *)
Definition createGeometry :
    Method CoplanarPolygonOutlineGeometry (option (Geometry number BoundingSphere)) :=
  do polygonHierarchy <- read _polygonHierarchy;
  let outerPositions := positions polygonHierarchy in
  let outerPositions := arrayRemoveDuplicates outerPositions equalsEpsilon true in
  match outerPositions with
  | None => throw (TypeError "outerPositions is undefined")
  | Some outerPositions =>
      if length outerPositions <? 3 then ret None
      else
        let isValid := validOutline outerPositions in
        if negb isValid then ret None
        else
          let polygons := polygonOutlinesFromHierarchy polygonHierarchy false in
          if length polygons =? 0 then ret None
          else
            let geometries :=
              map (fun polygon => {| geometry := createGeometryFromPositions polygon |})
                  polygons in
            match head (combineInstances geometries) with
            | None => throw (TypeError "geometry is undefined")
            | Some geometry =>
                let boundingSphere' := fromPoints (positions polygonHierarchy) in
                ret (Some {| attributes := attributes geometry;
                             indices := indices geometry;
                             primitiveType := primitiveType geometry;
                             boundingSphere := Some boundingSphere' |})
            end
  end.

(** *** The worker entry point *)

(** The two ways of calling the worker: [offset] is defined and
    [polygonGeometry] is a packed array, or [offset] is [undefined] and
    [polygonGeometry] is an instance. *)
Inductive WorkerCall :=
  | FromArray (polygonGeometry : jsarray number) (offset : nat)
  | FromInstance (polygonGeometry : CoplanarPolygonOutlineGeometry).

Definition get_ellipsoid (polygonGeometry : CoplanarPolygonOutlineGeometry) :
    option Ellipsoid :=
  default None (_ellipsoid polygonGeometry).

Definition set_ellipsoid (v : option Ellipsoid)
    (polygonGeometry : CoplanarPolygonOutlineGeometry) : CoplanarPolygonOutlineGeometry :=
  {| _polygonHierarchy := _polygonHierarchy polygonGeometry;
     _workerName := _workerName polygonGeometry;
     packedLength := packedLength polygonGeometry;
     _ellipsoid := Some v |}.

(** The two statements after the conditional unpack. *)
Definition clone_and_create :
    Method CoplanarPolygonOutlineGeometry (option (Geometry number BoundingSphere)) :=
  do ellipsoid <- read get_ellipsoid;
  do _ <- assign (set_ellipsoid (Ellipsoid_clone ellipsoid));
  createGeometry.

(** The result, and the arguments as they are after the call. *)
Definition createCoplanarPolygonOutlineGeometry (call : WorkerCall) :
    Completion (option (Geometry number BoundingSphere)) * WorkerCall :=
  match call with
  | FromArray array offset =>
      match unpack array (Some offset) None with
      | Normal polygonGeometry => (fst (clone_and_create polygonGeometry), call)
      | Throw e => (Throw e, call)
      | Undetermined => (Undetermined, call)
      end
  | FromInstance polygonGeometry =>
      let '(r, polygonGeometry) := clone_and_create polygonGeometry in
      (r, FromInstance polygonGeometry)
  end.

(** The dispatcher as the specification words it: unpack when an offset is
    given, then [createGeometry], and nothing else. *)
Definition dispatcher_spec (call : WorkerCall) :
    Completion (option (Geometry number BoundingSphere)) * WorkerCall :=
  match call with
  | FromArray array offset =>
      match unpack array (Some offset) None with
      | Normal polygonGeometry => (fst (createGeometry polygonGeometry), call)
      | Throw e => (Throw e, call)
      | Undetermined => (Undetermined, call)
      end
  | FromInstance polygonGeometry =>
      let '(r, polygonGeometry) := createGeometry polygonGeometry in
      (r, FromInstance polygonGeometry)
  end.

(** *** The layout of a packed hierarchy *)

Definition coordinates (p : Cartesian3 number) : list number := [x p; y p; z p].

(** The numbers of a packed hierarchy, in order: the number of points of
    the outer ring, the coordinates of its points, the number of holes,
    and the holes, each laid out in the same way. *)
Fixpoint encodeHierarchy (h : PolygonHierarchy number) : list number :=
  let ps := default [] (positions h) in
  num_of_nat (length ps) :: flat_map coordinates ps ++
  match holes h with
  | None => [num_of_nat 0]
  | Some hs => num_of_nat (length hs) :: flat_map encodeHierarchy hs
  end.

(** [vs] written into [array] from index [i] on, one element after the
    other. *)
Fixpoint array_write (array : jsarray number) (i : nat) (vs : list number) :
    jsarray number :=
  match vs with
  | [] => array
  | v :: vs => array_write (array_set array i (Some v)) (S i) vs
  end.

(** [array] holds the numbers [vs] from index [i] on. *)
Definition holds (array : jsarray number) (i : nat) (vs : list number) : Prop :=
  ∀ k v, vs !! k = Some v → array_get array (i + k) = Some v.

(** The hierarchy with an empty array for every absent [positions] and
    [holes]: the same rings, holes and coordinates. *)
Fixpoint with_arrays (h : PolygonHierarchy number) : PolygonHierarchy number :=
  {| positions := Some (default [] (positions h));
     holes := Some match holes h with
                   | None => []
                   | Some hs => map with_arrays hs
                   end |}.

(** The hierarchies in which every [positions] and [holes] is an array. *)
Fixpoint has_arrays (h : PolygonHierarchy number) : bool :=
  match positions h, holes h with
  | Some _, Some hs => forallb has_arrays hs
  | _, _ => false
  end.

(** How deep holes are nested in holes. *)
Fixpoint depth (h : PolygonHierarchy number) : nat :=
  S match holes h with
    | None => 0
    | Some hs => foldr (fun h d => depth h `max` d) 0 hs
    end.

(** [packedLength] as an index offset, and the instances whose
    [packedLength] is the one the constructor computes for their
    hierarchy. *)
Definition packedLength_nat (value : CoplanarPolygonOutlineGeometry) : nat :=
  from_option nat_of_num 0 (packedLength value).

Definition consistent (value : CoplanarPolygonOutlineGeometry) : Prop :=
  packedLength value =
  Some (num_of_nat (computeHierarchyPackedLength (_polygonHierarchy value) + 1)).

(** The two index pairs of the outline of [n] points: [i] and its
    successor around the ring. *)
Definition edge (n i : nat) : list N := [N.of_nat i; N.of_nat ((i + 1) mod n)].
End Worker.

(** ** A sample instance of the imports

    Stand-ins for the imported modules, on which the definitions above run:
    numbers are integers, a bounding sphere is kept as the points it was
    asked for, deduplication drops a point equal to the one before it (and a
    last point equal to the first), every outline is valid, the outlines of
    a hierarchy are its outer ring and the rings of its holes, and combining
    instances appends their buffers, the indices shifted past the vertices
    before them. *)
Module Sample.
Definition point (a b c : Z) : Cartesian3 Z := {| x := a; y := b; z := c |}.

Definition same_point (p q : Cartesian3 Z) : bool :=
  bool_decide (x p = x q) && bool_decide (y p = y q) && bool_decide (z p = z q).

Fixpoint remove_adjacent (eq : Cartesian3 Z → Cartesian3 Z → bool)
    (ps : list (Cartesian3 Z)) : list (Cartesian3 Z) :=
  match ps with
  | [] => []
  | p :: ps =>
      match ps with
      | [] => [p]
      | q :: _ => if eq p q then remove_adjacent eq ps else p :: remove_adjacent eq ps
      end
  end.

Definition remove_duplicates (values : option (list (Cartesian3 Z)))
    (eq : Cartesian3 Z → Cartesian3 Z → bool) (wrapAround : bool) :
    option (list (Cartesian3 Z)) :=
  match values with
  | None => None
  | Some ps =>
      let ps := remove_adjacent eq ps in
      match ps, last ps with
      | p :: _ :: _, Some q =>
          if wrapAround && eq p q then Some (removelast ps) else Some ps
      | _, _ => Some ps
      end
  end.

Fixpoint rings (h : PolygonHierarchy Z) : list (list (Cartesian3 Z)) :=
  default [] (positions h) ::
  match holes h with
  | None => []
  | Some hs => flat_map rings hs
  end.

Definition typed_array (numberOfVertices len : nat) : UintArray :=
  {| bits := if (65536 <=? N.of_nat numberOfVertices)%N then 32%N else 16%N;
     elems := replicate len 0%N |}.

Definition vertex_count (g : Geometry Z (list (Cartesian3 Z))) : N :=
  match position (attributes g) with
  | Some a => N.of_nat (length (values a) / 3)
  | None => 0%N
  end.

Fixpoint merge (base : N) (gs : list (GeometryInstance Z (list (Cartesian3 Z)))) :
    list Z * list N :=
  match gs with
  | [] => ([], [])
  | i :: gs =>
      let g := geometry i in
      let '(vs, ix) := merge (base + vertex_count g)%N gs in
      (match position (attributes g) with Some a => values a | None => [] end ++ vs,
       map (N.add base) (elems (indices g)) ++ ix)
  end.

Definition combine (gs : list (GeometryInstance Z (list (Cartesian3 Z)))) :
    list (Geometry Z (list (Cartesian3 Z))) :=
  let '(vs, ix) := merge 0%N gs in
  [ {| attributes := {| position := Some {| componentDatatype := DOUBLE;
                                            componentsPerAttribute := 3;
                                            values := vs |} |};
       indices := {| bits := 32%N; elems := ix |};
       primitiveType := LINES;
       boundingSphere := None |} ].

#[export] Instance imports : Imports Z := {|
  num_of_nat := Z.of_nat;
  nat_of_num := Z.to_nat;
  BoundingSphere := list (Cartesian3 Z);
  Ellipsoid := unit;
  createTypedArray := typed_array;
  equalsEpsilon := same_point;
  arrayRemoveDuplicates := remove_duplicates;
  validOutline := fun _ => true;
  polygonOutlinesFromHierarchy := fun h _ => rings h;
  combineInstances := combine;
  fromPoints := default [];
  Ellipsoid_clone := fun e => e
|}.

(** The rectangle of the end-to-end example. *)
Definition rectangle : list (Cartesian3 Z) :=
  [point 0 0 0; point 0 0 1; point 1 0 1; point 1 0 0].

Definition triangle : list (Cartesian3 Z) :=
  [point 2 0 2; point 2 0 3; point 3 0 3].

Definition rectangle_hierarchy : PolygonHierarchy Z :=
  {| positions := Some rectangle; holes := None |}.

Definition holed_hierarchy : PolygonHierarchy Z :=
  {| positions := Some rectangle;
     holes := Some [ {| positions := Some triangle; holes := Some [] |};
                     {| positions := Some [point 5 5 5]; 
                        holes := Some [ {| positions := None; holes := None |} ] |} ] |}.

Definition instance_of (h : PolygonHierarchy Z) (n : Z) : CoplanarPolygonOutlineGeometry :=
  {| _polygonHierarchy := h;
     _workerName := "createCoplanarPolygonOutlineGeometry";
     packedLength := Some n;
     _ellipsoid := None |}.

(** The instances that the constructor makes of the hierarchies above, and
    of the rectangle given with its first corner once more at the end. *)
Definition rectangle_instance : CoplanarPolygonOutlineGeometry :=
  instance_of rectangle_hierarchy 15.

Definition holed_instance : CoplanarPolygonOutlineGeometry :=
  instance_of holed_hierarchy 33.

Definition closed_rectangle_instance : CoplanarPolygonOutlineGeometry :=
  instance_of {| positions := Some (rectangle ++ [point 0 0 0]); holes := None |} 18.
End Sample.


(** ** Properties *)

Section Properties.
Context {number : Type} `{!Imports number}.

Implicit Types (array : jsarray number) (h : PolygonHierarchy number).
Implicit Types (ps : list (Cartesian3 number)) (vs : list number).

(** *** Arrays *)

Lemma array_get_set_eq array i v : array_get (array_set array i v) i = v.
Proof.
  unfold array_get, array_set. case_decide as Hi.
  - by rewrite list_lookup_insert_eq.
  - rewrite lookup_app_r by lia.
    rewrite lookup_app_r by (rewrite length_replicate; lia).
    rewrite length_replicate, Nat.sub_diag. done.
Qed.

Lemma array_get_set_ne array i j v :
  i ≠ j → array_get (array_set array i v) j = array_get array j.
Proof.
  intros Hne. unfold array_get, array_set. case_decide as Hi.
  - by rewrite list_lookup_insert_ne.
  - destruct (decide (j < length array)) as [Hj|Hj].
    + by rewrite lookup_app_l.
    + rewrite (lookup_ge_None_2 array j) by lia.
      rewrite lookup_app_r by lia.
      destruct (decide (j - length array < i - length array)) as [Hlt|Hge].
      * rewrite lookup_app_l by (rewrite length_replicate; lia).
        by rewrite lookup_replicate_2.
      * rewrite lookup_app_r by (rewrite length_replicate; lia).
        rewrite length_replicate.
        rewrite lookup_ge_None_2; [done | simpl; lia].
Qed.

Lemma length_array_set array i v :
  length (array_set array i v) = length array `max` S i.
Proof.
  unfold array_set. case_decide.
  - rewrite length_insert. lia.
  - rewrite !length_app, length_replicate. simpl. lia.
Qed.

(** *** createGeometryFromPositions *)

Lemma length_flat_map_coordinates ps :
  length (flat_map coordinates ps) = 3 * length ps.
Proof. induction ps as [|p ps IH]; simpl; lia. Qed.

Lemma length_flat_map_edge n l : length (flat_map (edge n) l) = 2 * length l.
Proof. induction l as [|i l IH]; simpl; lia. Qed.

Lemma uint_store_app (bs : N) (B Q : list N) (q v : N) :
  (v < 2 ^ bs)%N →
  uint_store {| bits := bs; elems := B ++ q :: Q |} (length B) v =
  {| bits := bs; elems := (B ++ [v]) ++ Q |}.
Proof.
  intros Hv. unfold uint_store. simpl. f_equal.
  rewrite insert_app_r_alt, Nat.sub_diag by lia. simpl.
  rewrite N.mod_small by done. by rewrite <- app_assoc.
Qed.

(** The loop fills the two typed arrays from the front: with [A] and [B]
    the parts written so far, it leaves the coordinates of the points
    left after [A] and their edges after [B]. *)
Lemma loop_spec len rest : ∀ i (A R : list number) bs (B Q : list N),
  i + length rest = len →
  length A = 3 * i → length R = 3 * length rest →
  length B = 2 * i → length Q = 2 * length rest →
  (N.of_nat len ≤ 2 ^ bs)%N →
  loop len rest i
    {| flatPositions := A ++ R;
       loop_indices := {| bits := bs; elems := B ++ Q |};
       positionIndex := 3 * i; index := 2 * i |} =
  {| flatPositions := A ++ flat_map coordinates rest;
     loop_indices :=
       {| bits := bs; elems := B ++ flat_map (edge len) (seq i (length rest)) |};
     positionIndex := 3 * len; index := 2 * len |}.
Proof.
  induction rest as [|p rest IH]; intros i A R bs B Q Hi HA HR HB HQ Hbs; simpl in *.
  - destruct R; [|done]. destruct Q; [|done].
    replace i with len by lia. done.
  - destruct R as [|r0 [|r1 [|r2 R]]]; simpl in HR; try lia.
    destruct Q as [|q0 [|q1 Q]]; simpl in HQ; try lia.
    assert (Hmod : (i + 1) mod len < len) by (apply Nat.mod_upper_bound; lia).
    unfold loop_body. simpl.
    rewrite <- HA, <- HB.
    rewrite (insert_app_r_alt A _ (length A)), Nat.sub_diag by lia. simpl.
    rewrite (insert_app_r_alt A _ (S (length A))) by lia.
    replace (S (length A) - length A) with 1 by lia. simpl.
    rewrite (insert_app_r_alt A _ (S (S (length A)))) by lia.
    replace (S (S (length A)) - length A) with 2 by lia. simpl.
    rewrite uint_store_app by lia.
    replace (S (length B)) with (length (B ++ [N.of_nat i])) by (rewrite length_app; simpl; lia).
    rewrite uint_store_app by lia.
    replace (A ++ x p :: y p :: z p :: R) with ((A ++ coordinates p) ++ R)
      by (by rewrite <- app_assoc).
    replace (S (S (S (length A)))) with (3 * S i) by lia.
    replace (S (length (B ++ [N.of_nat i]))) with (2 * S i)
      by (rewrite length_app; simpl; lia).
    rewrite (IH (S i)); try lia; try (rewrite !length_app; simpl; lia).
    f_equal.
    + by rewrite <- app_assoc.
    + f_equal. rewrite <- !app_assoc. done.
Qed.

Lemma lookup_flat_map_edge n m : ∀ s k,
  k < m →
  flat_map (edge n) (seq s m) !! (2 * k) = Some (N.of_nat (s + k)) ∧
  flat_map (edge n) (seq s m) !! (2 * k + 1) = Some (N.of_nat ((s + k + 1) mod n)).
Proof.
  induction m as [|m IH]; intros s k Hk; [lia|].
  destruct k as [|k]; simpl.
  - by rewrite Nat.add_0_r.
  - replace (k + S (k + 0)) with (S (2 * k)) by lia. simpl.
    destruct (IH (S s) k) as [IH1 IH2]; [lia|].
    replace (s + S k) with (S s + k) by lia. split; [done|].
    replace (k + (k + 0) + 1) with (2 * k + 1) by lia. done.
Qed.

(** C1.  For every list of N points (so for N >= 3 distinct points), the
    geometry that [createGeometryFromPositions] returns has a position
    attribute of 3N doubles, the x, y, z of each point in input order; its
    index buffer has length 2N and is the pairs (i, (i+1) mod N) for i =
    0..N-1 in order; its primitive type is LINES.  The index array that
    [IndexDatatype.createTypedArray] gives is taken to have the length
    asked for and elements wide enough for the N vertex indices. *)
Theorem createGeometryFromPositions_outline (positions : list (Cartesian3 number)) :
  let n := length positions in
  let g := createGeometryFromPositions positions in
  length (elems (createTypedArray n (n * 2))) = n * 2 →
  (N.of_nat n ≤ 2 ^ bits (createTypedArray n (n * 2)))%N →
  position (attributes g) =
    Some {| componentDatatype := DOUBLE; componentsPerAttribute := 3;
            values := flat_map coordinates positions |} ∧
  length (flat_map coordinates positions) = 3 * n ∧
  elems (indices g) = flat_map (edge n) (seq 0 n) ∧
  length (elems (indices g)) = 2 * n ∧
  (∀ i, i < n →
     elems (indices g) !! (2 * i) = Some (N.of_nat i) ∧
     elems (indices g) !! (2 * i + 1) = Some (N.of_nat ((i + 1) mod n))) ∧
  primitiveType g = LINES.
Proof.
  intros n g Hlen Hbits. subst g. unfold createGeometryFromPositions. fold n.
  destruct (createTypedArray n (n * 2)) as [bs el] eqn:Hta. simpl in Hlen, Hbits.
  pose proof (loop_spec n positions 0 [] (replicate (n * 3) (num_of_nat 0)) bs [] el) as Hloop.
  simpl in Hloop. rewrite Hloop; try done.
  - simpl. split_and!; try done.
    + apply length_flat_map_coordinates.
    + rewrite length_flat_map_edge, length_seq. done.
    + intros i Hi. destruct (lookup_flat_map_edge n n 0 i Hi) as [H1 H2]. done.
  - rewrite length_replicate. lia.
  - lia.
Qed.

(** *** Hierarchies *)

Lemma PolygonHierarchy_ind (P : PolygonHierarchy number → Prop) :
  (∀ ops, P {| positions := ops; holes := None |}) →
  (∀ ops hs, Forall P hs → P {| positions := ops; holes := Some hs |}) →
  ∀ h, P h.
Proof.
  intros HNone HSome. fix IH 1. intros [ops [hs|]].
  - apply HSome. induction hs as [|h' hs IHhs]; constructor; [apply IH | exact IHhs].
  - apply HNone.
Qed.

(** *** Writing and reading the packed form *)

Lemma array_write_app array i vs ws :
  array_write array i (vs ++ ws) = array_write (array_write array i vs) (i + length vs) ws.
Proof.
  revert array i. induction vs as [|v vs IH]; intros array i; simpl.
  - by rewrite Nat.add_0_r.
  - rewrite IH. by replace (i + S (length vs)) with (S i + length vs) by lia.
Qed.

Lemma array_get_write_out array i vs j :
  j < i ∨ i + length vs ≤ j → array_get (array_write array i vs) j = array_get array j.
Proof.
  revert array i. induction vs as [|v vs IH]; intros array i Hj; simpl in *; [done|].
  rewrite IH by lia. apply array_get_set_ne. lia.
Qed.

Lemma holds_array_write array i vs : holds (array_write array i vs) i vs.
Proof.
  revert array i. induction vs as [|v vs IH]; intros array i k w Hk; [done|].
  destruct k as [|k]; simpl in *.
  - injection Hk as ->. rewrite Nat.add_0_r.
    rewrite array_get_write_out by lia. apply array_get_set_eq.
  - replace (i + S k) with (S i + k) by lia. by apply IH.
Qed.

Lemma length_array_write array i vs :
  length array ≤ length (array_write array i vs).
Proof.
  revert array i. induction vs as [|v vs IH]; intros array i; simpl; [done|].
  etrans; [|apply IH]. rewrite length_array_set. lia.
Qed.

Lemma holds_cons array i v vs :
  holds array i (v :: vs) ↔ array_get array i = Some v ∧ holds array (S i) vs.
Proof.
  unfold holds. split.
  - intros H. split.
    + rewrite <- (Nat.add_0_r i). by apply H.
    + intros k w Hk. replace (S i + k) with (i + S k) by lia. by apply H.
  - intros [H0 H] [|k] w Hk; simpl in Hk.
    + injection Hk as <-. by rewrite Nat.add_0_r.
    + replace (i + S k) with (S i + k) by lia. by apply H.
Qed.

Lemma holds_app array i vs ws :
  holds array i (vs ++ ws) ↔ holds array i vs ∧ holds array (i + length vs) ws.
Proof.
  revert i. induction vs as [|v vs IH]; intros i; simpl.
  - rewrite Nat.add_0_r. unfold holds at 2. split; [|tauto].
    intros H. split; [|done]. by intros k w Hk.
  - rewrite !holds_cons, IH. replace (S i + length vs) with (i + S (length vs)) by lia.
    tauto.
Qed.

Lemma pack_positions_write ps : ∀ array i,
  pack_positions ps array i =
  (array_write array i (flat_map coordinates ps), i + 3 * length ps).
Proof.
  induction ps as [|p ps IH]; intros array i; simpl.
  - by rewrite Nat.add_0_r.
  - rewrite IH. unfold Cartesian3_pack.
    replace (i + 1) with (S i) by lia. replace (i + 2) with (S (S i)) by lia.
    replace (i + 3) with (S (S (S i))) by lia. f_equal. lia.
Qed.

(** [packPolygonHierarchy] writes the layout [encodeHierarchy] and returns
    the index after it. *)
Lemma packPolygonHierarchy_write h : ∀ array i,
  packPolygonHierarchy h array i =
  (array_write array i (encodeHierarchy h), i + length (encodeHierarchy h)).
Proof.
  induction h as [ops|ops hs IH] using PolygonHierarchy_ind; intros array i; simpl.
  - rewrite pack_positions_write, array_write_app. simpl.
    rewrite length_app, length_flat_map_coordinates. simpl. f_equal. lia.
  - rewrite pack_positions_write, array_write_app. simpl.
    rewrite length_app, length_flat_map_coordinates. simpl.
    assert (Hholes : ∀ array i,
      pack_holes packPolygonHierarchy hs array i =
      (array_write array i (flat_map encodeHierarchy hs),
       i + length (flat_map encodeHierarchy hs))).
    { clear array i. induction IH as [|h hs Hh _ IHhs]; intros array i; simpl.
      - by rewrite Nat.add_0_r.
      - rewrite Hh, IHhs, array_write_app, length_app. f_equal. lia. }
    rewrite Hholes. f_equal. lia.
Qed.

Lemma computeHierarchyPackedLength_encode h :
  computeHierarchyPackedLength h = length (encodeHierarchy h).
Proof.
  induction h as [ops|ops hs IH] using PolygonHierarchy_ind; simpl.
  - rewrite length_app, length_flat_map_coordinates. simpl. lia.
  - rewrite length_app, length_flat_map_coordinates. simpl.
    assert (foldr (λ h n, computeHierarchyPackedLength h + n) 0 hs =
            length (flat_map encodeHierarchy hs)) as ->.
    { induction IH as [|h hs Hh _ IHhs]; simpl; [done|].
      rewrite length_app. lia. }
    lia.
Qed.

Lemma Cartesian3_unpack_holds array i p :
  holds array i (coordinates p) → Cartesian3_unpack array i = Some p.
Proof.
  intros H. unfold Cartesian3_unpack.
  rewrite <- (Nat.add_0_r i) at 1.
  rewrite (H 0 (x p)), (H 1 (y p)), (H 2 (z p)) by done.
  simpl. by destruct p.
Qed.

Lemma unpack_positions_holds ps : ∀ array i,
  holds array i (flat_map coordinates ps) →
  unpack_positions (length ps) array i = Some (ps, i + 3 * length ps).
Proof.
  induction ps as [|p ps IH]; intros array i H; simpl.
  - by rewrite Nat.add_0_r.
  - apply holds_app in H as [Hp Hps]. simpl in Hps.
    rewrite (Cartesian3_unpack_holds _ _ p Hp). simpl.
    rewrite (IH _ _ Hps). simpl. do 2 f_equal. lia.
Qed.

Lemma unpack_holes_holds unpackHole array hs :
  Forall (λ h, ∀ i, holds array i (encodeHierarchy h) →
               unpackHole array i = Some (with_arrays h, i + length (encodeHierarchy h))) hs →
  ∀ i, holds array i (flat_map encodeHierarchy hs) →
  unpack_holes unpackHole (length hs) array i =
  Some (map with_arrays hs, i + length (flat_map encodeHierarchy hs)).
Proof.
  induction 1 as [|h hs Hh _ IH]; intros i H; simpl.
  - by rewrite Nat.add_0_r.
  - apply holds_app in H as [H1 H2].
    rewrite (Hh _ H1). simpl. rewrite (IH _ H2). simpl.
    rewrite length_app. do 2 f_equal. lia.
Qed.

Lemma depth_holes_le (hs : list (PolygonHierarchy number)) fuel :
  S (foldr (λ h d, depth h `max` d) 0 hs) ≤ S fuel → Forall (λ h, depth h ≤ fuel) hs.
Proof.
  induction hs as [|h hs IH]; simpl; intros Hd; constructor; [lia|].
  apply IH. lia.
Qed.

(** Reading back what [packPolygonHierarchy] wrote, with fuel for the depth
    of the hierarchy, gives the hierarchy and the index after it. *)
Lemma unpackPolygonHierarchy_fuel_holds h :
  (∀ n, nat_of_num (num_of_nat n) = n) →
  ∀ fuel array i,
  depth h ≤ fuel → holds array i (encodeHierarchy h) →
  unpackPolygonHierarchy_fuel fuel array i =
  Some (with_arrays h, i + length (encodeHierarchy h)).
Proof.
  intros Hnum.
  induction h as [ops|ops hs IH] using PolygonHierarchy_ind;
    intros fuel array i Hfuel H; (destruct fuel as [|fuel]; [simpl in Hfuel; lia|]);
    cbn [encodeHierarchy positions holes] in H;
    apply holds_cons in H as [Hn H]; apply holds_app in H as [Hps H];
    rewrite length_flat_map_coordinates in H;
    apply holds_cons in H as [Hm H];
    cbn [unpackPolygonHierarchy_fuel encodeHierarchy with_arrays positions holes];
    rewrite Hn; cbn [mbind option_bind]; rewrite Hnum;
    rewrite (unpack_positions_holds _ _ _ Hps); cbn [mbind option_bind];
    rewrite Hm; cbn [mbind option_bind]; rewrite Hnum.
  - cbn. rewrite length_app, length_flat_map_coordinates. cbn [length].
    do 2 f_equal. lia.
  - rewrite (unpack_holes_holds (unpackPolygonHierarchy_fuel fuel) array hs).
    + cbn [mbind option_bind length]. rewrite length_app, length_flat_map_coordinates.
      cbn [length]. do 2 f_equal. lia.
    + cbn [depth holes] in Hfuel.
      apply (depth_holes_le hs fuel) in Hfuel.
      eapply Forall_impl; [apply Forall_and; split; [exact IH | exact Hfuel]|].
      intros h [IHh Hd] j Hj. by apply IHh.
    + done.
Qed.

Lemma depth_le_length h : depth h ≤ length (encodeHierarchy h).
Proof.
  induction h as [ops|ops hs IH] using PolygonHierarchy_ind; simpl.
  - rewrite length_app. simpl. lia.
  - rewrite length_app. simpl.
    assert (foldr (λ h d, depth h `max` d) 0 hs ≤ length (flat_map encodeHierarchy hs)).
    { induction IH as [|h hs Hh _ IHhs]; simpl; [done|]. rewrite length_app. lia. }
    lia.
Qed.

(** *** The fuel of the reader *)

Lemma array_get_Some_lt array i v : array_get array i = Some v → i < length array.
Proof.
  unfold array_get. intros H. destruct (array !! i) as [w|] eqn:Hi; [|done].
  by apply lookup_lt_Some in Hi.
Qed.

Lemma unpack_positions_index n : ∀ array i ps j,
  unpack_positions n array i = Some (ps, j) → j = i + 3 * n.
Proof.
  induction n as [|n IH]; intros array i ps j H; simpl in H.
  - injection H as _ <-. lia.
  - destruct (Cartesian3_unpack array i) as [p|]; [|done]. simpl in H.
    destruct (unpack_positions n array (i + 3)) as [[ps' j']|] eqn:Hrest; [|done].
    simpl in H. injection H as _ <-. apply IH in Hrest. lia.
Qed.

(** Two readers of a hole that agree from index [k0] on read the same holes
    from there on. *)
Lemma unpack_holes_agree
    (g g' : jsarray number → nat → option (PolygonHierarchy number * nat)) array k0 :
  (∀ k r, k0 ≤ k → g array k = Some r → g' array k = Some r ∧ k < r.2) →
  ∀ n k hs j, k0 ≤ k →
  unpack_holes g n array k = Some (hs, j) →
  unpack_holes g' n array k = Some (hs, j) ∧ k ≤ j.
Proof.
  intros Hg. induction n as [|n IH]; intros k hs j Hk H; simpl in *.
  - injection H as <- <-. done.
  - destruct (g array k) as [[h k']|] eqn:Hh; [|done]. simpl in H.
    destruct (Hg k (h, k') Hk Hh) as [-> Hlt]. simpl in *.
    destruct (unpack_holes g n array k') as [[hs' j']|] eqn:Hrest; [|done].
    simpl in H. injection H as <- <-.
    destruct (IH k' hs' j' ltac:(lia) Hrest) as [-> Hle]. simpl. split; [done|lia].
Qed.

(** What the reader finds with some fuel it finds with any fuel that, added
    to the starting index, reaches the length of the array; and it ends after
    where it started. *)
Lemma unpackPolygonHierarchy_fuel_enough fuel : ∀ array i r,
  unpackPolygonHierarchy_fuel fuel array i = Some r →
  i < r.2 ∧
  ∀ fuel', length array ≤ fuel' + i → unpackPolygonHierarchy_fuel fuel' array i = Some r.
Proof.
  induction fuel as [|fuel IH]; intros array i r H; [done|].
  cbn [unpackPolygonHierarchy_fuel] in H.
  destruct (array_get array i) as [n|] eqn:Hn; [|done]. cbn [mbind option_bind] in H.
  destruct (unpack_positions (nat_of_num n) array (S i)) as [[ps i1]|] eqn:Hps; [|done].
  cbn [mbind option_bind] in H.
  destruct (array_get array i1) as [m|] eqn:Hm; [|done]. cbn [mbind option_bind] in H.
  destruct (unpack_holes (unpackPolygonHierarchy_fuel fuel) (nat_of_num m) array (S i1))
    as [[hs j]|] eqn:Hhs; [|done].
  cbn [mbind option_bind] in H. injection H as <-.
  apply unpack_positions_index in Hps as Hi1.
  apply array_get_Some_lt in Hn as Hlt.
  assert (Hle : S i1 ≤ j).
  { eapply (unpack_holes_agree _ (unpackPolygonHierarchy_fuel fuel) array (S i1)); [|done|done].
    intros k r _ Hr. split; [done|]. by apply IH in Hr as [? _]. }
  split; [simpl; lia|].
  intros [|fuel'] Hfuel; [lia|].
  cbn [unpackPolygonHierarchy_fuel]. rewrite Hn. cbn [mbind option_bind].
  rewrite Hps. cbn [mbind option_bind]. rewrite Hm. cbn [mbind option_bind].
  destruct (unpack_holes_agree (unpackPolygonHierarchy_fuel fuel)
              (unpackPolygonHierarchy_fuel fuel') array (S i1)) with
    (n := nat_of_num m) (k := S i1) (hs := hs) (j := j) as [-> _]; [|done|done|done].
  intros k r Hk Hr. apply IH in Hr as [? Hr]. split; [|done]. apply Hr. lia.
Qed.

(** The fuel that [unpackPolygonHierarchy] gives the reader is enough: it
    finds whatever the reader finds with any fuel. *)
Lemma unpackPolygonHierarchy_enough fuel array i r :
  unpackPolygonHierarchy_fuel fuel array i = Some r →
  unpackPolygonHierarchy array i = Some r.
Proof.
  intros H. apply unpackPolygonHierarchy_fuel_enough in H as [_ H].
  apply H. lia.
Qed.

Lemma length_array_write_le array i vs :
  length (array_write array i vs) ≤ length array `max` (i + length vs).
Proof.
  revert array i. induction vs as [|v vs IH]; intros array i; simpl; [lia|].
  etrans; [apply IH|]. rewrite length_array_set. lia.
Qed.

(** *** pack and unpack *)

Lemma pack_write value array startingIndex :
  let off := defaultValue startingIndex 0 in
  let enc := encodeHierarchy (_polygonHierarchy value) in
  pack value array startingIndex =
  array_set (array_write array off enc) (off + length enc) (packedLength value).
Proof. intros off enc. unfold pack. by rewrite packPolygonHierarchy_write. Qed.

(** What [pack] leaves in the array. *)
Lemma pack_cells (value : CoplanarPolygonOutlineGeometry) array (startingIndex : option nat) :
  let off := defaultValue startingIndex 0 in
  let enc := encodeHierarchy (_polygonHierarchy value) in
  let packed := pack value array startingIndex in
  holds packed off enc ∧
  array_get packed (off + length enc) = packedLength value ∧
  (∀ j, j < off ∨ off + length enc < j → array_get packed j = array_get array j) ∧
  length packed = length array `max` (off + length enc + 1).
Proof.
  intros off enc packed. subst packed. rewrite pack_write. fold off enc.
  split_and!.
  - intros k v Hk. apply lookup_lt_Some in Hk as Hlt.
    rewrite array_get_set_ne by lia. by apply holds_array_write.
  - apply array_get_set_eq.
  - intros j Hj. rewrite array_get_set_ne by lia.
    apply array_get_write_out. lia.
  - rewrite length_array_set.
    pose proof (length_array_write array off enc).
    pose proof (length_array_write_le array off enc). lia.
Qed.

(** C6.  [pack] writes the layout of the hierarchy (the number of points of
    the outer ring and their coordinates, the number of holes, and each hole
    in the same way) into the array from the starting index on, then
    [value.packedLength] in the one element after the layout, and returns the
    array it was given: every other element is what it was, and the array
    is longer only as far as the elements written reach. *)
Theorem pack_layout (value : CoplanarPolygonOutlineGeometry) array (startingIndex : option nat) :
  let off := defaultValue startingIndex 0 in
  let enc := encodeHierarchy (_polygonHierarchy value) in
  let packed := pack value array startingIndex in
  enc = num_of_nat (length (default [] (positions (_polygonHierarchy value)))) ::
        flat_map coordinates (default [] (positions (_polygonHierarchy value))) ++
        num_of_nat (length (default [] (holes (_polygonHierarchy value)))) ::
        flat_map encodeHierarchy (default [] (holes (_polygonHierarchy value))) ∧
  (∀ k v, enc !! k = Some v → array_get packed (off + k) = Some v) ∧
  array_get packed (off + length enc) = packedLength value ∧
  (∀ j, j < off ∨ off + length enc < j → array_get packed j = array_get array j) ∧
  length packed = length array `max` (off + length enc + 1).
Proof.
  intros off enc packed. split; [|apply pack_cells].
  subst enc. by destruct (_polygonHierarchy value) as [ops [hs|]].
Qed.

Lemma new_scratch :
  new_CoplanarPolygonOutlineGeometry (Some scratchOptions) =
  Normal {| _polygonHierarchy := {| positions := None; holes := None |};
            _workerName := "createCoplanarPolygonOutlineGeometry";
            packedLength := Some (num_of_nat 3);
            _ellipsoid := None |}.
Proof. reflexivity. Qed.

Lemma with_arrays_idemp h : with_arrays (with_arrays h) = with_arrays h.
Proof.
  induction h as [ops|ops hs IH] using PolygonHierarchy_ind; simpl; [done|].
  do 2 f_equal. induction IH as [|h hs Hh _ IHhs]; simpl; [done|]. by f_equal.
Qed.

Lemma with_arrays_has_arrays h : has_arrays h = true → with_arrays h = h.
Proof.
  induction h as [ops|ops hs IH] using PolygonHierarchy_ind; simpl.
  - by destruct ops.
  - destruct ops as [ps|]; [|done]. simpl. intros Hhs. do 2 f_equal.
    induction IH as [|h hs Hh _ IHhs]; simpl in *; [done|].
    apply andb_prop in Hhs as [H1 H2]. f_equal; auto.
Qed.

Lemma encodeHierarchy_with_arrays h :
  encodeHierarchy (with_arrays h) = encodeHierarchy h.
Proof.
  induction h as [ops|ops hs IH] using PolygonHierarchy_ind; simpl; [done|].
  rewrite length_map. do 3 f_equal.
  induction IH as [|h hs Hh _ IHhs]; simpl; [done|]. by f_equal.
Qed.

(** C2.  Unpacking, at the same offset, the array that [pack] returns gives
    an instance whose hierarchy has the rings, holes and coordinates of the
    packed one (with an empty array where [positions] or [holes] was
    absent, so the very same hierarchy when none was) and the
    [packedLength] of the packed instance; this holds for every array, which
    [pack] extends as far as it writes, and whether or not a [result] object
    is given.  Array lengths are taken to convert to numbers and back
    unchanged. *)
Theorem unpack_pack (value : CoplanarPolygonOutlineGeometry) array
    (startingIndex : option nat) (result : option CoplanarPolygonOutlineGeometry) :
  (∀ n, nat_of_num (num_of_nat n) = n) →
  ∃ unpacked,
    unpack (pack value array startingIndex) startingIndex result = Normal unpacked ∧
    _polygonHierarchy unpacked = with_arrays (_polygonHierarchy value) ∧
    (has_arrays (_polygonHierarchy value) = true →
     _polygonHierarchy unpacked = _polygonHierarchy value) ∧
    packedLength unpacked = packedLength value.
Proof.
  intros Hnum.
  destruct (pack_cells value array startingIndex) as (Hholds & Hlen & _ & Hsize).
  unfold unpack, unpackPolygonHierarchy.
  rewrite (unpackPolygonHierarchy_fuel_holds (_polygonHierarchy value) Hnum); [| |done].
  - rewrite Hlen. destruct result as [result|]; [|rewrite new_scratch]; simpl;
      eexists; (split_and!; [done|done| |done]);
      intros Hh; by rewrite with_arrays_has_arrays.
  - rewrite Hsize. pose proof (depth_le_length (_polygonHierarchy value)). lia.
Qed.

(** The instance read back has the [packedLength] of its hierarchy when the
    packed one had. *)
Lemma unpack_pack_consistent (value unpacked : CoplanarPolygonOutlineGeometry) array
    (startingIndex : option nat) (result : option CoplanarPolygonOutlineGeometry) :
  (∀ n, nat_of_num (num_of_nat n) = n) →
  consistent value →
  unpack (pack value array startingIndex) startingIndex result = Normal unpacked →
  consistent unpacked.
Proof.
  intros Hnum Hc Hu.
  destruct (pack_cells value array startingIndex) as (Hholds & Hlen & _ & Hsize).
  unfold unpack, unpackPolygonHierarchy in Hu.
  rewrite (unpackPolygonHierarchy_fuel_holds (_polygonHierarchy value) Hnum) in Hu; [| |done].
  - rewrite Hlen in Hu. unfold consistent in *.
    destruct result as [result|]; [|rewrite new_scratch in Hu]; simpl in Hu;
      injection Hu as <-; simpl;
      by rewrite Hc, !computeHierarchyPackedLength_encode, encodeHierarchy_with_arrays.
  - rewrite Hsize. pose proof (depth_le_length (_polygonHierarchy value)). lia.
Qed.

(** C10, as amended.  [pack] leaves every element below the starting index
    as it was, for every instance; and, for an instance whose
    [packedLength] is the one the constructor computes for its hierarchy,
    also every element from [startingIndex + value.packedLength] on: for
    such an instance it writes inside the packed region only. *)
Theorem pack_frame (value : CoplanarPolygonOutlineGeometry) array
    (startingIndex : option nat) (j : nat) :
  let off := defaultValue startingIndex 0 in
  (j < off → array_get (pack value array startingIndex) j = array_get array j) ∧
  ((∀ n, nat_of_num (num_of_nat n) = n) → consistent value →
   off + packedLength_nat value ≤ j →
   array_get (pack value array startingIndex) j = array_get array j).
Proof.
  intros off.
  destruct (pack_cells value array startingIndex) as (_ & _ & Hout & _). fold off in Hout.
  split.
  - intros Hj. apply Hout. lia.
  - intros Hnum Hc Hj. apply Hout. right.
    unfold packedLength_nat in Hj. rewrite Hc in Hj. simpl in Hj.
    rewrite Hnum, computeHierarchyPackedLength_encode in Hj. lia.
Qed.

(** *** The constructor and fromPositions *)

(** C7.  The constructor throws when [options.polygonHierarchy] is absent
    (also when [options] itself is), and for every hierarchy that is
    present it returns an instance with that hierarchy whose
    [packedLength] is the packed length of the hierarchy plus one. *)
Theorem constructor_packedLength :
  new_CoplanarPolygonOutlineGeometry None =
    Throw (DeveloperError "options.polygonHierarchy") ∧
  (∀ other, new_CoplanarPolygonOutlineGeometry
              (Some {| opt_polygonHierarchy := None; opt_positions := other |}) =
            Throw (DeveloperError "options.polygonHierarchy")) ∧
  (∀ h other, ∃ value,
     new_CoplanarPolygonOutlineGeometry
       (Some {| opt_polygonHierarchy := Some h; opt_positions := other |}) = Normal value ∧
     _polygonHierarchy value = h ∧
     packedLength value = Some (num_of_nat (computeHierarchyPackedLength h + 1)) ∧
     computeHierarchyPackedLength h = length (encodeHierarchy h)).
Proof.
  split_and!; [done|done|]. intros h other. eexists. split; [reflexivity|]. simpl.
  split_and!; [done|done|]. apply computeHierarchyPackedLength_encode.
Qed.

Lemma constructor_consistent options value :
  new_CoplanarPolygonOutlineGeometry options = Normal value → consistent value.
Proof.
  unfold new_CoplanarPolygonOutlineGeometry.
  destruct (opt_polygonHierarchy (defaultValue options EMPTY_OBJECT)); simpl; [|done].
  by intros [= <-].
Qed.

(** C8.  For options with a [positions] array, [fromPositions] returns
    what the constructor returns for the hierarchy whose outer ring is that
    array and which has no holes, and this is an instance with that
    hierarchy. *)
Theorem fromPositions_single_ring ps (other : option (PolygonHierarchy number)) :
  fromPositions (Some {| opt_polygonHierarchy := other; opt_positions := Some ps |}) =
    new_CoplanarPolygonOutlineGeometry
      (Some {| opt_polygonHierarchy := Some {| positions := Some ps; holes := None |};
               opt_positions := None |}) ∧
  ∃ value,
    fromPositions (Some {| opt_polygonHierarchy := other; opt_positions := Some ps |}) =
      Normal value ∧
    _polygonHierarchy value = {| positions := Some ps; holes := None |} ∧
    holes (_polygonHierarchy value) = None ∧
    packedLength value = Some (num_of_nat (3 * length ps + 2 + 1)).
Proof.
  split; [done|]. eexists. split; [reflexivity|]. simpl. split_and!; try done.
  do 2 f_equal. lia.
Qed.

(** *** createGeometry *)

Lemma createGeometry_state (polygonGeometry : CoplanarPolygonOutlineGeometry) :
  snd (createGeometry polygonGeometry) = polygonGeometry.
Proof.
  unfold createGeometry, bindM, read. simpl.
  destruct (arrayRemoveDuplicates _ _ _) as [outer|]; [|done].
  destruct (length outer <? 3); [done|].
  destruct (negb (validOutline outer)); [done|].
  destruct (length _ =? 0); [done|].
  by destruct (head _).
Qed.

(** C9.  [createGeometry] leaves the instance it is given, and so its
    hierarchy, outer ring and holes, as they were: it assigns no property
    of it, and the deduplicated ring is a local value. *)
Theorem createGeometry_frame (polygonGeometry : CoplanarPolygonOutlineGeometry) :
  snd (createGeometry polygonGeometry) = polygonGeometry ∧
  positions (_polygonHierarchy (snd (createGeometry polygonGeometry))) =
    positions (_polygonHierarchy polygonGeometry) ∧
  holes (_polygonHierarchy (snd (createGeometry polygonGeometry))) =
    holes (_polygonHierarchy polygonGeometry).
Proof. by rewrite createGeometry_state. Qed.

(** What [createGeometry] returns depends on the hierarchy only. *)
Lemma createGeometry_hierarchy (d d' : CoplanarPolygonOutlineGeometry) :
  _polygonHierarchy d = _polygonHierarchy d' →
  fst (createGeometry d) = fst (createGeometry d').
Proof.
  intros Hh. unfold createGeometry, bindM, read. simpl. rewrite <- Hh.
  destruct (arrayRemoveDuplicates _ _ _) as [outer|]; [|done].
  destruct (length outer <? 3); [done|].
  destruct (negb (validOutline outer)); [done|].
  destruct (length _ =? 0); [done|].
  by destruct (head _).
Qed.

(** C3, as amended.  For an instance of whose outer ring
    [arrayRemoveDuplicates] returns an array [outer], [createGeometry]
    returns [undefined], and throws nothing, exactly when fewer than three
    points are in [outer], or [validOutline] rejects [outer], or the
    hierarchy has no outlines; in every other case it returns a geometry.
    The routine that combines the instances is taken to return a geometry
    when it is given at least one instance. *)
Theorem createGeometry_undefined_iff (polygonGeometry : CoplanarPolygonOutlineGeometry)
    (outer : list (Cartesian3 number)) :
  let h := _polygonHierarchy polygonGeometry in
  let polygons := polygonOutlinesFromHierarchy h false in
  let degenerate :=
    length outer < 3 ∨ validOutline outer = false ∨ polygons = [] in
  arrayRemoveDuplicates (positions h) equalsEpsilon true = Some outer →
  (polygons ≠ [] →
   combineInstances
     (map (λ polygon, {| geometry := createGeometryFromPositions polygon |}) polygons) ≠ []) →
  (fst (createGeometry polygonGeometry) = Normal None ↔ degenerate) ∧
  (¬ degenerate → ∃ g, fst (createGeometry polygonGeometry) = Normal (Some g)).
Proof.
  intros h polygons degenerate Houter Hcombine. subst degenerate.
  unfold createGeometry, bindM, read. simpl. fold h. rewrite Houter. fold polygons.
  destruct (Nat.ltb_spec (length outer) 3) as [Hlt|Hge]; simpl.
  { split; [tauto|]. intros Hd. exfalso. apply Hd. by left. }
  destruct (validOutline outer) eqn:Hvalid; simpl; cycle 1.
  { split; [tauto|]. intros Hd. exfalso. apply Hd. right. by left. }
  destruct polygons as [|polygon polygons'] eqn:Hpolygons; simpl.
  { split; [tauto|]. intros Hd. exfalso. apply Hd. right. by right. }
  specialize (Hcombine ltac:(done)). simpl in Hcombine.
  destruct (combineInstances _) as [|geometry gs]; [done|]. simpl.
  split; [|eauto].
  split; [done|]. intros [?|[?|?]]; [lia|done|done].
Qed.

(** C4.  When [createGeometry] returns a geometry, its bounding sphere is
    the one [BoundingSphere.fromPoints] computes from [positions] of the
    hierarchy, the outer ring as given, whatever the deduplication made of
    it. *)
Theorem createGeometry_boundingSphere (polygonGeometry : CoplanarPolygonOutlineGeometry)
    (g : Geometry number BoundingSphere) :
  fst (createGeometry polygonGeometry) = Normal (Some g) →
  boundingSphere g = Some (fromPoints (positions (_polygonHierarchy polygonGeometry))).
Proof.
  unfold createGeometry, bindM, read. simpl.
  destruct (arrayRemoveDuplicates _ _ _) as [outer|]; [|done].
  destruct (length outer <? 3); [done|].
  destruct (negb (validOutline outer)); [done|].
  destruct (length _ =? 0); [done|].
  destruct (head _); [|done]. simpl. by intros [= <-].
Qed.

(** *** The worker entry point *)

(** C5, as amended.  The entry point returns what the dispatcher of the
    specification returns (the result of [createGeometry] on the instance,
    unpacked from the array at the offset when there is one), and leaves a
    packed array as it was; an instance given directly has, after the call,
    its [_ellipsoid] property set to [Ellipsoid.clone] of the value it
    had. *)
Theorem worker_dispatch (call : WorkerCall) :
  fst (createCoplanarPolygonOutlineGeometry call) = fst (dispatcher_spec call) ∧
  snd (createCoplanarPolygonOutlineGeometry call) =
    match call with
    | FromArray _ _ => call
    | FromInstance polygonGeometry =>
        FromInstance
          (set_ellipsoid (Ellipsoid_clone (get_ellipsoid polygonGeometry)) polygonGeometry)
    end.
Proof.
  assert (Hclone : ∀ d,
    clone_and_create d =
    (fst (createGeometry d), set_ellipsoid (Ellipsoid_clone (get_ellipsoid d)) d)).
  { intros d. unfold clone_and_create, bindM, read, assign.
    set (d' := set_ellipsoid _ d).
    pose proof (createGeometry_state d') as Hsnd.
    rewrite (createGeometry_hierarchy d d') by done.
    destruct (createGeometry d') as [r d'']. simpl in *. by subst. }
  destruct call as [array offset|d]; simpl.
  - destruct (unpack array (Some offset) None) as [d| |]; simpl; [|done..].
    by rewrite Hclone.
  - rewrite Hclone. pose proof (createGeometry_state d) as Hsnd.
    destruct (createGeometry d) as [r d'']. done.
Qed.

(** *** More on createGeometryFromPositions *)

Lemma loop_flatPositions len rest : ∀ i (A R : list number) ix idx,
  length A = 3 * i → length R = 3 * length rest →
  flatPositions
    (loop len rest i
       {| flatPositions := A ++ R; loop_indices := ix;
          positionIndex := 3 * i; index := idx |}) =
  A ++ flat_map coordinates rest.
Proof.
  induction rest as [|p rest IH]; intros i A R ix idx HA HR; simpl in *.
  - by destruct R.
  - destruct R as [|r0 [|r1 [|r2 R]]]; simpl in HR; try lia.
    unfold loop_body. simpl. rewrite <- HA.
    rewrite (insert_app_r_alt A _ (length A)), Nat.sub_diag by lia. simpl.
    rewrite (insert_app_r_alt A _ (S (length A))) by lia.
    replace (S (length A) - length A) with 1 by lia. simpl.
    rewrite (insert_app_r_alt A _ (S (S (length A)))) by lia.
    replace (S (S (length A)) - length A) with 2 by lia. simpl.
    replace (A ++ x p :: y p :: z p :: R) with ((A ++ coordinates p) ++ R)
      by (by rewrite <- app_assoc).
    replace (S (S (S (length A)))) with (3 * S i) by lia.
    rewrite IH; [by rewrite <- app_assoc | rewrite length_app; simpl; lia | lia].
Qed.

Lemma loop_indices_shape len rest : ∀ i (s : @LoopState number),
  bits (loop_indices (loop len rest i s)) = bits (loop_indices s) ∧
  length (elems (loop_indices (loop len rest i s))) = length (elems (loop_indices s)).
Proof.
  induction rest as [|p rest IH]; intros i s; simpl; [done|].
  destruct (IH (S i) (loop_body len i p s)) as [-> ->].
  unfold loop_body, uint_store. simpl. by rewrite !length_insert.
Qed.

(** X1.  Whatever index array [IndexDatatype.createTypedArray] hands out,
    the geometry of [createGeometryFromPositions] has a position attribute
    of doubles, three per vertex, that is the x, y, z of the points in input
    order; the index array keeps its length and its element width; the
    primitive type is LINES and no bounding sphere is set. *)
Theorem createGeometryFromPositions_buffers (positions : list (Cartesian3 number)) :
  let n := length positions in
  let g := createGeometryFromPositions positions in
  position (attributes g) =
    Some {| componentDatatype := DOUBLE; componentsPerAttribute := 3;
            values := flat_map coordinates positions |} ∧
  length (flat_map coordinates positions) = 3 * n ∧
  bits (indices g) = bits (createTypedArray n (n * 2)) ∧
  length (elems (indices g)) = length (elems (createTypedArray n (n * 2))) ∧
  primitiveType g = LINES ∧
  boundingSphere g = None.
Proof.
  intros n g. subst g. unfold createGeometryFromPositions. fold n. simpl.
  pose proof (loop_flatPositions n positions 0 [] (replicate (n * 3) (num_of_nat 0))
                (createTypedArray n (n * 2)) 0) as Hflat.
  simpl in Hflat. rewrite Hflat; [|done|rewrite length_replicate; lia].
  split_and!; try done.
  - apply length_flat_map_coordinates.
  - apply loop_indices_shape.
  - apply loop_indices_shape.
Qed.

(** The geometry of the outline, when the index array has the length asked
    for and elements wide enough for the vertex indices. *)
Lemma createGeometryFromPositions_eq (positions : list (Cartesian3 number)) :
  let n := length positions in
  length (elems (createTypedArray n (n * 2))) = n * 2 →
  (N.of_nat n ≤ 2 ^ bits (createTypedArray n (n * 2)))%N →
  createGeometryFromPositions positions =
  {| attributes :=
       {| position := Some {| componentDatatype := DOUBLE; componentsPerAttribute := 3;
                              values := flat_map coordinates positions |} |};
     indices := {| bits := bits (createTypedArray n (n * 2));
                   elems := flat_map (edge n) (seq 0 n) |};
     primitiveType := LINES;
     boundingSphere := None |}.
Proof.
  intros n Hlen Hbits. unfold createGeometryFromPositions. fold n.
  destruct (createTypedArray n (n * 2)) as [bs el] eqn:Hta. simpl in Hlen, Hbits.
  pose proof (loop_spec n positions 0 [] (replicate (n * 3) (num_of_nat 0)) bs [] el) as Hloop.
  simpl in Hloop. rewrite Hloop; try done; [rewrite length_replicate|]; lia.
Qed.





Lemma take_drop_flat_map_coordinates ps : ∀ k p,
  ps !! k = Some p → take 3 (drop (3 * k) (flat_map coordinates ps)) = coordinates p.
Proof.
  induction ps as [|q ps IH]; intros k p Hk; [done|].
  destruct k as [|k]; simpl in *.
  - by injection Hk as ->.
  - replace (k + S (k + S (k + 0))) with (S (S (3 * k))) by lia. simpl. by apply IH.
Qed.

(** X3.  Segment [k] of the outline joins point [k] to the point after it
    around the ring: the two indices of the segment select, in the position
    buffer, the coordinates of [positions[k]] and of
    [positions[(k+1) mod N]].  The index array is taken to have the length
    asked for and elements wide enough for the vertex indices. *)
Theorem createGeometryFromPositions_segment (positions : list (Cartesian3 number))
    (k : nat) (p q : Cartesian3 number) :
  let n := length positions in
  let g := createGeometryFromPositions positions in
  length (elems (createTypedArray n (n * 2))) = n * 2 →
  (N.of_nat n ≤ 2 ^ bits (createTypedArray n (n * 2)))%N →
  positions !! k = Some p →
  positions !! ((k + 1) mod n) = Some q →
  ∃ a b vs,
    elems (indices g) !! (2 * k) = Some a ∧
    elems (indices g) !! (2 * k + 1) = Some b ∧
    values <$> position (attributes g) = Some vs ∧
    take 3 (drop (3 * N.to_nat a) vs) = coordinates p ∧
    take 3 (drop (3 * N.to_nat b) vs) = coordinates q.
Proof.
  intros n g Hlen Hbits Hp Hq. subst g.
  rewrite createGeometryFromPositions_eq by done. fold n. simpl.
  apply lookup_lt_Some in Hp as Hk. fold n in Hk.
  destruct (lookup_flat_map_edge n n 0 k Hk) as [Ha Hb]. simpl in Ha, Hb.
  eexists _, _, _. split_and!; [exact Ha | exact Hb | done | |].
  - rewrite Nat2N.id. by apply take_drop_flat_map_coordinates.
  - rewrite Nat2N.id. by apply take_drop_flat_map_coordinates.
Qed.

(** *** More on pack and unpack *)

Lemma holds_length array i vs : holds array i vs → vs = [] ∨ i + length vs ≤ length array.
Proof.
  intros H. destruct (decide (vs = [])) as [|Hne]; [by left|right].
  destruct (vs !! (length vs - 1)) as [v|] eqn:Hv.
  - apply H, array_get_Some_lt in Hv. lia.
  - apply lookup_ge_None in Hv. destruct vs; [done|simpl in *; lia].
Qed.

(** The reader reads back any array that holds the layout of a hierarchy. *)
Lemma unpackPolygonHierarchy_holds h array i :
  (∀ n, nat_of_num (num_of_nat n) = n) →
  holds array i (encodeHierarchy h) →
  unpackPolygonHierarchy array i = Some (with_arrays h, i + length (encodeHierarchy h)).
Proof.
  intros Hnum H. unfold unpackPolygonHierarchy.
  apply unpackPolygonHierarchy_fuel_holds; [done| |done].
  pose proof (depth_le_length h). apply holds_length in H as [H|H]; [|lia].
  by destruct h as [ops [hs|]].
Qed.

Lemma unpack_holds h array (startingIndex : option nat)
    (result : option CoplanarPolygonOutlineGeometry) :
  let off := defaultValue startingIndex 0 in
  (∀ n, nat_of_num (num_of_nat n) = n) →
  holds array off (encodeHierarchy h) →
  ∃ unpacked,
    unpack array startingIndex result = Normal unpacked ∧
    _polygonHierarchy unpacked = with_arrays h ∧
    packedLength unpacked = array_get array (off + length (encodeHierarchy h)).
Proof.
  intros off Hnum H. unfold unpack. fold off.
  rewrite (unpackPolygonHierarchy_holds h) by done.
  destruct result as [result|]; [|rewrite new_scratch]; simpl; eauto.
Qed.

(** X4.  [unpack] needs nothing of the array but the packed region: from
    any array that holds the layout of a hierarchy at the starting index it
    returns an instance with that hierarchy (an empty array where
    [positions] or [holes] was absent) whose [packedLength] is the element
    right after the layout, whatever else the array holds.  Array lengths
    are taken to convert to numbers and back unchanged. *)
Theorem unpack_reads_layout h array (startingIndex : option nat)
    (result : option CoplanarPolygonOutlineGeometry) :
  let off := defaultValue startingIndex 0 in
  (∀ n, nat_of_num (num_of_nat n) = n) →
  (∀ k v, encodeHierarchy h !! k = Some v → array_get array (off + k) = Some v) →
  ∃ unpacked,
    unpack array startingIndex result = Normal unpacked ∧
    _polygonHierarchy unpacked = with_arrays h ∧
    packedLength unpacked = array_get array (off + length (encodeHierarchy h)).
Proof. intros off Hnum H. by apply unpack_holds. Qed.

(** X5.  Two instances packed one after the other, the second at the index
    where the packed region of the first ends, are both read back by
    [unpack] at their starting indices: the second [pack] leaves the region
    of the first as it is.  The first instance has the [packedLength] the
    constructor computed; array lengths are taken to convert to numbers and
    back unchanged. *)
Theorem pack_consecutive (value1 value2 : CoplanarPolygonOutlineGeometry) array (off : nat) :
  let next := off + packedLength_nat value1 in
  let packed := pack value2 (pack value1 array (Some off)) (Some next) in
  (∀ n, nat_of_num (num_of_nat n) = n) →
  consistent value1 →
  ∃ unpacked1 unpacked2,
    unpack packed (Some off) None = Normal unpacked1 ∧
    _polygonHierarchy unpacked1 = with_arrays (_polygonHierarchy value1) ∧
    packedLength unpacked1 = packedLength value1 ∧
    unpack packed (Some next) None = Normal unpacked2 ∧
    _polygonHierarchy unpacked2 = with_arrays (_polygonHierarchy value2) ∧
    packedLength unpacked2 = packedLength value2.
Proof.
  intros next packed Hnum Hc.
  assert (Hnext : next = off + length (encodeHierarchy (_polygonHierarchy value1)) + 1).
  { subst next. unfold packedLength_nat. rewrite Hc. simpl.
    rewrite Hnum, computeHierarchyPackedLength_encode. lia. }
  destruct (pack_cells value1 array (Some off)) as (Hholds1 & Hlen1 & _ & _).
  destruct (pack_cells value2 (pack value1 array (Some off)) (Some next))
    as (Hholds2 & Hlen2 & Hout2 & _).
  simpl in Hholds1, Hlen1, Hholds2, Hlen2, Hout2. fold packed in Hholds2, Hlen2, Hout2.
  destruct (unpack_holds (_polygonHierarchy value1) packed (Some off) None Hnum)
    as (u1 & Hu1 & Hh1 & Hp1).
  { intros k v Hk. simpl. apply lookup_lt_Some in Hk as Hlt.
    rewrite Hout2 by lia. by apply Hholds1. }
  destruct (unpack_holds (_polygonHierarchy value2) packed (Some next) None Hnum Hholds2)
    as (u2 & Hu2 & Hh2 & Hp2).
  exists u1, u2. split_and!; try done.
  - rewrite Hp1. simpl. rewrite Hout2 by lia. done.
  - rewrite Hp2. done.
Qed.

Lemma jsarray_ext (a b : jsarray number) :
  length a = length b → (∀ i, array_get a i = array_get b i) → a = b.
Proof.
  intros Hlen Hget. apply list_eq. intros i.
  destruct (decide (i < length a)) as [Hi|Hi].
  - destruct (lookup_lt_is_Some_2 a i Hi) as [va Ha].
    destruct (lookup_lt_is_Some_2 b i ltac:(lia)) as [vb Hb].
    specialize (Hget i). unfold array_get in Hget. rewrite Ha, Hb in Hget.
    simpl in Hget. by rewrite Ha, Hb, Hget.
  - rewrite !lookup_ge_None_2 by lia. done.
Qed.

(** X6.  Packing an instance once more at the same index changes nothing:
    the array after the second [pack] is the array after the first, element
    for element and in length. *)
Theorem pack_idempotent (value : CoplanarPolygonOutlineGeometry) array
    (startingIndex : option nat) :
  pack value (pack value array startingIndex) startingIndex = pack value array startingIndex.
Proof.
  set (once := pack value array startingIndex).
  destruct (pack_cells value array startingIndex) as (Hh1 & Hl1 & _ & Hs1).
  destruct (pack_cells value once startingIndex) as (Hh2 & Hl2 & Ho2 & Hs2).
  fold once in Hh1, Hl1, Hs1.
  set (off := defaultValue startingIndex 0) in *.
  set (enc := encodeHierarchy (_polygonHierarchy value)) in *.
  apply jsarray_ext; [lia|]. intros i.
  destruct (decide (i < off ∨ off + length enc < i)) as [Hi|Hi]; [by apply Ho2|].
  destruct (decide (i = off + length enc)) as [->|Hne]; [by rewrite Hl1, Hl2|].
  destruct (lookup_lt_is_Some_2 enc (i - off) ltac:(lia)) as [v Hv].
  replace i with (off + (i - off)) by lia.
  by rewrite (Hh1 _ _ Hv), (Hh2 _ _ Hv).
Qed.

(** X7.  Whenever the reader of the packed hierarchy returns a hierarchy
    and the index after it, [unpack] returns an instance, and throws
    nothing: the instance it makes when no [result] is given comes from
    options that have a hierarchy, so the constructor's check passes.  The
    instance has the hierarchy read and, as [packedLength], the element of
    the array at the index after it; it is the [result] given, with its
    [_workerName] and [_ellipsoid] as they were, or a new instance with the
    name of the worker and no [_ellipsoid]. *)
Theorem unpack_result (array : jsarray number) (startingIndex : option nat)
    (h : PolygonHierarchy number) (i : nat) :
  unpackPolygonHierarchy array (defaultValue startingIndex 0) = Some (h, i) →
  ∀ result, ∃ unpacked,
    unpack array startingIndex result = Normal unpacked ∧
    _polygonHierarchy unpacked = h ∧
    packedLength unpacked = array_get array i ∧
    _workerName unpacked =
      match result with
      | Some given => _workerName given
      | None => "createCoplanarPolygonOutlineGeometry"
      end ∧
    _ellipsoid unpacked =
      match result with
      | Some given => _ellipsoid given
      | None => None
      end.
Proof.
  intros Hread result. unfold unpack. rewrite Hread.
  destruct result as [given|]; [|rewrite new_scratch]; simpl; eauto 10.
Qed.

(** *** More on createGeometry and the entry point *)

(** X8.  [createGeometry] throws in two cases only: [arrayRemoveDuplicates]
    returns [undefined] (reading its [length] fails), or the ring passes the
    three checks and [combineInstances] returns no geometry (reading the
    [attributes] of its first element fails). *)
Theorem createGeometry_throws (polygonGeometry : CoplanarPolygonOutlineGeometry) :
  let h := _polygonHierarchy polygonGeometry in
  let deduplicated := arrayRemoveDuplicates (positions h) equalsEpsilon true in
  let polygons := polygonOutlinesFromHierarchy h false in
  let instances :=
    map (λ polygon, {| geometry := createGeometryFromPositions polygon |}) polygons in
  fst (createGeometry polygonGeometry) ≠ Undetermined ∧
  ((∃ e, fst (createGeometry polygonGeometry) = Throw e) ↔
   deduplicated = None ∨
   ∃ outer, deduplicated = Some outer ∧ 3 ≤ length outer ∧ validOutline outer = true ∧
            polygons ≠ [] ∧ combineInstances instances = []).
Proof.
  intros h deduplicated polygons instances. subst deduplicated instances.
  unfold createGeometry, bindM, read. simpl. fold h.
  destruct (arrayRemoveDuplicates _ _ _) as [outer|]; simpl; cycle 1.
  { split; [done|]. split; eauto. }
  destruct (Nat.ltb_spec (length outer) 3) as [Hlt|Hge]; simpl.
  { split; [done|]. split; [by intros [e ?]|]. intros [?|(o & [= <-] & ? & _)]; [done|lia]. }
  destruct (validOutline outer) eqn:Hvalid; simpl; cycle 1.
  { split; [done|]. split; [by intros [e ?]|].
    intros [?|(o & [= <-] & _ & ? & _)]; [done|congruence]. }
  fold polygons. destruct polygons as [|polygon polygons'] eqn:Hpolygons; simpl.
  { split; [done|]. split; [by intros [e ?]|].
    intros [?|(o & _ & _ & _ & ? & _)]; done. }
  destruct (combineInstances _) as [|first rest] eqn:Hcombine; simpl.
  - split; [done|]. split; [|eauto]. intros _. right. exists outer. done.
  - split; [done|]. split; [by intros [e ?]|].
    intros [?|(o & _ & _ & _ & _ & ?)]; done.
Qed.

(** X9.  The geometry that [createGeometry] returns is the first of the
    geometries that [combineInstances] gives for the instances of the
    outlines, one instance per outline in order, each made by
    [createGeometryFromPositions]: its attributes, indices and primitive type,
    with the bounding sphere of the outer ring as given; the other
    geometries that [combineInstances] returns are dropped. *)
Theorem createGeometry_first_combined (polygonGeometry : CoplanarPolygonOutlineGeometry)
    (g : Geometry number BoundingSphere) :
  let h := _polygonHierarchy polygonGeometry in
  let polygons := polygonOutlinesFromHierarchy h false in
  let instances :=
    map (λ polygon, {| geometry := createGeometryFromPositions polygon |}) polygons in
  fst (createGeometry polygonGeometry) = Normal (Some g) →
  ∃ first rest,
    combineInstances instances = first :: rest ∧
    g = {| attributes := attributes first;
           indices := indices first;
           primitiveType := primitiveType first;
           boundingSphere := Some (fromPoints (positions h)) |}.
Proof.
  intros h polygons instances. subst instances polygons.
  unfold createGeometry, bindM, read. simpl. fold h.
  destruct (arrayRemoveDuplicates _ _ _) as [outer|]; [|done].
  destruct (length outer <? 3); [done|].
  destruct (negb (validOutline outer)); [done|].
  destruct (length _ =? 0); [done|].
  destruct (combineInstances _) as [|first rest]; [done|]. simpl.
  intros [= <-]. eauto.
Qed.

Lemma clone_and_create_eq (d : CoplanarPolygonOutlineGeometry) :
  clone_and_create d =
  (fst (createGeometry d), set_ellipsoid (Ellipsoid_clone (get_ellipsoid d)) d).
Proof.
  unfold clone_and_create, bindM, read, assign.
  set (d' := set_ellipsoid _ d).
  pose proof (createGeometry_state d') as Hsnd.
  rewrite (createGeometry_hierarchy d d') by done.
  destruct (createGeometry d') as [r d'']. simpl in *. by subst.
Qed.

(** X10.  A packed instance handed to the worker with its offset gives what
    [createGeometry] gives for the instance read back, whose hierarchy is
    the packed one with an empty array where [positions] or [holes] was
    absent; for a hierarchy in which none is absent this is what
    [createGeometry] gives for the instance that was packed.  The array is
    left as it was.  Array lengths are taken to convert to numbers and back
    unchanged. *)
Theorem worker_on_packed (value : CoplanarPolygonOutlineGeometry) array (off : nat) :
  let packed := pack value array (Some off) in
  (∀ n, nat_of_num (num_of_nat n) = n) →
  ∃ unpacked,
    _polygonHierarchy unpacked = with_arrays (_polygonHierarchy value) ∧
    createCoplanarPolygonOutlineGeometry (FromArray packed off) =
      (fst (createGeometry unpacked), FromArray packed off) ∧
    (has_arrays (_polygonHierarchy value) = true →
     fst (createGeometry unpacked) = fst (createGeometry value)).
Proof.
  intros packed Hnum.
  destruct (pack_cells value array (Some off)) as (Hholds & _).
  destruct (unpack_holds (_polygonHierarchy value) packed (Some off) None Hnum Hholds)
    as (u & Hu & Hh & _).
  exists u. split_and!; [done| |].
  - simpl. rewrite Hu, clone_and_create_eq. done.
  - intros Harrays. apply createGeometry_hierarchy.
    by rewrite Hh, with_arrays_has_arrays.
Qed.

(** X11.  Calling the worker again with the arguments as the first call
    left them gives the result of the first call: the [_ellipsoid] property
    that the entry point assigns has no part in the geometry. *)
Theorem worker_repeatable (call : WorkerCall) :
  fst (createCoplanarPolygonOutlineGeometry (snd (createCoplanarPolygonOutlineGeometry call))) =
  fst (createCoplanarPolygonOutlineGeometry call).
Proof.
  destruct call as [array offset|d]; simpl.
  - destruct (unpack array (Some offset) None) eqn:Hu; simpl; by rewrite Hu.
  - rewrite !clone_and_create_eq. simpl. rewrite clone_and_create_eq. simpl.
    by apply createGeometry_hierarchy.
Qed.

(** X12.  [fromPositions] throws a developer error naming
    [options.positions] when the options or their [positions] are absent,
    also when the options hold a [polygonHierarchy]; and when [positions] is
    given, a [polygonHierarchy] in the options is not used. *)
Theorem fromPositions_positions_required :
  fromPositions None = Throw (DeveloperError "options.positions") ∧
  (∀ hierarchy,
     fromPositions (Some {| opt_polygonHierarchy := hierarchy; opt_positions := None |}) =
     Throw (DeveloperError "options.positions")) ∧
  (∀ hierarchy ps,
     fromPositions (Some {| opt_polygonHierarchy := hierarchy; opt_positions := Some ps |}) =
     fromPositions (Some {| opt_polygonHierarchy := None; opt_positions := Some ps |})).
Proof. done. Qed.

(** X13.  A ring is not checked when the instance is made: [fromPositions]
    accepts any array of positions, the empty one too, and it is
    [createGeometry], and the worker, that return [undefined] when fewer
    than three points are left of the ring after deduplication. *)
Theorem short_ring_no_geometry ps (outer : list (Cartesian3 number))
    (hierarchy : option (PolygonHierarchy number)) :
  arrayRemoveDuplicates (Some ps) equalsEpsilon true = Some outer →
  length outer < 3 →
  ∃ value,
    fromPositions (Some {| opt_polygonHierarchy := hierarchy; opt_positions := Some ps |}) =
      Normal value ∧
    createGeometry value = (Normal None, value) ∧
    fst (createCoplanarPolygonOutlineGeometry (FromInstance value)) = Normal None.
Proof.
  intros Houter Hlt. eexists. split; [reflexivity|].
  assert (Hcreate : ∀ d : CoplanarPolygonOutlineGeometry,
            positions (_polygonHierarchy d) = Some ps → createGeometry d = (Normal None, d)).
  { intros d Hd. unfold createGeometry, bindM, read. simpl. rewrite Hd, Houter.
    by destruct (Nat.ltb_spec (length outer) 3); [|lia]. }
  split; [by apply Hcreate|].
  simpl. rewrite clone_and_create_eq. simpl. by rewrite Hcreate.
Qed.
End Properties.

(** ** The theorems at the sample instance *)

Import Sample.

(** The outline of the rectangle: twelve coordinates and eight indices. *)
Lemma createGeometryFromPositions_outline_witness :
  length (elems (createTypedArray 4 (4 * 2))) = 4 * 2 ∧
  (N.of_nat 4 ≤ 2 ^ bits (createTypedArray 4 (4 * 2)))%N ∧
  position (attributes (createGeometryFromPositions rectangle)) =
    Some {| componentDatatype := DOUBLE; componentsPerAttribute := 3;
            values := [0; 0; 0; 0; 0; 1; 1; 0; 1; 1; 0; 0]%Z |} ∧
  elems (indices (createGeometryFromPositions rectangle)) = [0; 1; 1; 2; 2; 3; 3; 0]%N ∧
  primitiveType (createGeometryFromPositions rectangle) = LINES.
Proof.
  assert (H1 : length (elems (createTypedArray 4 (4 * 2))) = 4 * 2) by reflexivity.
  assert (H2 : (N.of_nat 4 ≤ 2 ^ bits (createTypedArray 4 (4 * 2)))%N) by (vm_compute; discriminate).
  split; [exact H1|]. split; [exact H2|].
  destruct (createGeometryFromPositions_outline rectangle H1 H2)
    as (Hposition & _ & Hindices & _ & _ & Htype).
  split; [exact Hposition|]. split; [exact Hindices | exact Htype].
Defined.

(** A hierarchy with two holes, one of them with a hole of its own, packed
    at index 3 of a one-element array and read back. *)
Lemma unpack_pack_witness :
  (∀ n, nat_of_num (num_of_nat n) = n) ∧
  ∃ unpacked,
    unpack (pack holed_instance [Some 7%Z] (Some 3)) (Some 3) None = Normal unpacked ∧
    _polygonHierarchy unpacked = with_arrays holed_hierarchy ∧
    (has_arrays holed_hierarchy = true → _polygonHierarchy unpacked = holed_hierarchy) ∧
    packedLength unpacked = Some 33%Z.
Proof.
  split; [exact Nat2Z.id|].
  exact (unpack_pack holed_instance [Some 7%Z] (Some 3) None Nat2Z.id).
Defined.

(** The rectangle packed into the empty array: the point count first, the
    hole count at 13, the packed length at 14. *)
Lemma pack_layout_witness :
  array_get (pack rectangle_instance [] None) 0 = Some 4%Z ∧
  array_get (pack rectangle_instance [] None) 13 = Some 0%Z ∧
  array_get (pack rectangle_instance [] None) 14 = Some 15%Z ∧
  length (pack rectangle_instance [] None) = 15.
Proof.
  destruct (pack_layout rectangle_instance [] None) as (_ & Hcells & Hlength & _ & Hsize).
  split; [apply (Hcells 0); reflexivity|].
  split; [apply (Hcells 13); reflexivity|].
  split; [exact Hlength | exact Hsize].
Defined.

(** The hierarchy with holes packed at index 3 of forty nines: 33 elements
    are written, so the elements at 2 and at 36 are nines still. *)
Lemma pack_frame_witness :
  (∀ n, nat_of_num (num_of_nat n) = n) ∧
  consistent holed_instance ∧
  3 + packedLength_nat holed_instance ≤ 36 ∧
  array_get (pack holed_instance (replicate 40 (Some 9%Z)) (Some 3)) 36 = Some 9%Z ∧
  array_get (pack holed_instance (replicate 40 (Some 9%Z)) (Some 3)) 2 = Some 9%Z.
Proof.
  assert (H3 : 3 + packedLength_nat holed_instance ≤ 36) by (vm_compute; lia).
  split; [exact Nat2Z.id|]. split; [reflexivity|]. split; [exact H3|].
  split.
  - exact (proj2 (pack_frame holed_instance (replicate 40 (Some 9%Z)) (Some 3) 36)
             Nat2Z.id eq_refl H3).
  - apply (proj1 (pack_frame holed_instance (replicate 40 (Some 9%Z)) (Some 3) 2)).
    simpl. lia.
Defined.

(** The rectangle is not degenerate, and has a geometry. *)
Lemma createGeometry_undefined_iff_witness :
  arrayRemoveDuplicates (positions rectangle_hierarchy) equalsEpsilon true = Some rectangle ∧
  (polygonOutlinesFromHierarchy rectangle_hierarchy false ≠ [] →
   combineInstances
     (map (λ polygon, {| geometry := createGeometryFromPositions polygon |})
        (polygonOutlinesFromHierarchy rectangle_hierarchy false)) ≠ []) ∧
  fst (createGeometry rectangle_instance) ≠ Normal None ∧
  ∃ g, fst (createGeometry rectangle_instance) = Normal (Some g).
Proof.
  assert (H1 : arrayRemoveDuplicates (positions rectangle_hierarchy) equalsEpsilon true =
               Some rectangle) by reflexivity.
  assert (H2 : polygonOutlinesFromHierarchy rectangle_hierarchy false ≠ [] →
               combineInstances
                 (map (λ polygon, {| geometry := createGeometryFromPositions polygon |})
                    (polygonOutlinesFromHierarchy rectangle_hierarchy false)) ≠ [])
    by (intros _; discriminate).
  split; [exact H1|]. split; [exact H2|].
  destruct (createGeometry_undefined_iff rectangle_instance rectangle H1 H2) as [Hiff Hgeometry].
  assert (Hnot : ¬ (length rectangle < 3 ∨ validOutline rectangle = false ∨
                    polygonOutlinesFromHierarchy rectangle_hierarchy false = [])).
  { intros [Hlt|[Hvalid|Hnone]]; [simpl in Hlt; lia | discriminate | discriminate]. }
  split.
  - intros Hundefined. apply Hnot, Hiff, Hundefined.
  - apply Hgeometry, Hnot.
Defined.

(** The rectangle with its first corner repeated at the end: deduplication
    drops the repeated corner, the bounding sphere is asked for all five
    points. *)
Lemma createGeometry_boundingSphere_witness :
  ∃ g, fst (createGeometry closed_rectangle_instance) = Normal (Some g) ∧
       boundingSphere g = Some (rectangle ++ [point 0 0 0]) ∧
       arrayRemoveDuplicates (Some (rectangle ++ [point 0 0 0])) equalsEpsilon true =
         Some rectangle.
Proof.
  eexists. split; [reflexivity|]. split; [|reflexivity].
  apply (createGeometry_boundingSphere closed_rectangle_instance). reflexivity.
Defined.

(** C5, as the claim words it, fails: for an instance given directly the
    entry point is not the dispatcher of the specification, since after the
    call the instance has an [_ellipsoid] property that it had not before. *)
Lemma worker_dispatch_counterexample :
  createCoplanarPolygonOutlineGeometry (FromInstance rectangle_instance) ≠
  dispatcher_spec (FromInstance rectangle_instance).
Proof. intros H. apply (f_equal snd) in H. vm_compute in H. discriminate H. Qed.

(** ** The worker on the sample instance *)

(** The rectangle of the specification's example: four vertices, the index
    buffer 0,1,1,2,2,3,3,0 and the bounding sphere of the four corners. *)
Example rectangle_outline :
  createCoplanarPolygonOutlineGeometry (FromInstance rectangle_instance) =
  (Normal (Some {| attributes :=
                     {| position :=
                          Some {| componentDatatype := DOUBLE;
                                  componentsPerAttribute := 3;
                                  values := [0; 0; 0; 0; 0; 1; 1; 0; 1; 1; 0; 0]%Z |} |};
                   indices := {| bits := 32; elems := [0; 1; 1; 2; 2; 3; 3; 0]%N |};
                   primitiveType := LINES;
                   boundingSphere := Some rectangle |}),
   FromInstance (set_ellipsoid None rectangle_instance)).
Proof. reflexivity. Qed.

(** The same through a packed array, which the call leaves as it is. *)
Example rectangle_outline_packed :
  createCoplanarPolygonOutlineGeometry
    (FromArray (pack rectangle_instance [Some 7%Z; Some 7%Z] (Some 2)) 2) =
  (fst (createGeometry rectangle_instance),
   FromArray (pack rectangle_instance [Some 7%Z; Some 7%Z] (Some 2)) 2).
Proof. reflexivity. Qed.

(** Two distinct points, and three points of which two are equal: no
    geometry, and no exception. *)
Example two_points_undefined :
  fst (createGeometry
         (instance_of {| positions := Some [point 0 0 0; point 0 0 1]; holes := None |} 9)) =
  Normal None.
Proof. reflexivity. Qed.

Example repeated_point_undefined :
  fst (createGeometry
         (instance_of {| positions := Some [point 0 0 0; point 0 0 1; point 0 0 1];
                         holes := None |} 12)) =
  Normal None.
Proof. reflexivity. Qed.

(** The constructor and [fromPositions] on the rectangle. *)
Example fromPositions_rectangle :
  fromPositions (Some {| opt_polygonHierarchy := None; opt_positions := Some rectangle |}) =
  Normal rectangle_instance.
Proof. reflexivity. Qed.

Example constructor_holed :
  new_CoplanarPolygonOutlineGeometry
    (Some {| opt_polygonHierarchy := Some holed_hierarchy; opt_positions := None |}) =
  Normal holed_instance.
Proof. reflexivity. Qed.

(** The packed form of the rectangle, written after two elements that were
    in the array: 4 points, their coordinates, no hole, and the length 15. *)
Example pack_rectangle :
  pack rectangle_instance [Some 7; Some 7]%Z (Some 2) =
  (Some <$> [7; 7; 4; 0; 0; 0; 0; 0; 1; 1; 0; 1; 1; 0; 0; 0; 15])%Z.
Proof. reflexivity. Qed.

(** Packing past the end of the array leaves the elements in between
    [undefined]. *)
Example pack_extends :
  pack (instance_of {| positions := Some []; holes := None |} 3) [Some 7%Z] (Some 3) =
  [Some 7; None; None; Some 0; Some 0; Some 3]%Z.
Proof. reflexivity. Qed.

(** ** The further properties at the sample instance *)


(** The last segment of the rectangle joins its fourth corner to its
    first. *)
Lemma createGeometryFromPositions_segment_witness :
  length (elems (createTypedArray 4 (4 * 2))) = 4 * 2 ∧
  (N.of_nat 4 ≤ 2 ^ bits (createTypedArray 4 (4 * 2)))%N ∧
  rectangle !! 3 = Some (point 1 0 0) ∧
  rectangle !! ((3 + 1) mod 4) = Some (point 0 0 0) ∧
  ∃ a b vs,
    elems (indices (createGeometryFromPositions rectangle)) !! (2 * 3) = Some a ∧
    elems (indices (createGeometryFromPositions rectangle)) !! (2 * 3 + 1) = Some b ∧
    values <$> position (attributes (createGeometryFromPositions rectangle)) = Some vs ∧
    take 3 (drop (3 * N.to_nat a) vs) = [1; 0; 0]%Z ∧
    take 3 (drop (3 * N.to_nat b) vs) = [0; 0; 0]%Z.
Proof.
  assert (H1 : length (elems (createTypedArray 4 (4 * 2))) = 4 * 2) by reflexivity.
  assert (H2 : (N.of_nat 4 ≤ 2 ^ bits (createTypedArray 4 (4 * 2)))%N) by (vm_compute; discriminate).
  split; [exact H1|]. split; [exact H2|]. split; [reflexivity|]. split; [reflexivity|].
  exact (createGeometryFromPositions_segment rectangle 3 (point 1 0 0) (point 0 0 0)
           H1 H2 eq_refl eq_refl).
Defined.

(** A ring of one point, laid out at index 1 between other numbers. *)
Lemma unpack_reads_layout_witness :
  (∀ n, nat_of_num (num_of_nat n) = n) ∧
  (∀ k v,
     encodeHierarchy {| positions := Some [point 1 2 3]; holes := None |} !! k = Some v →
     array_get (Some <$> [9; 1; 1; 2; 3; 0; 6; 8]%Z) (1 + k) = Some v) ∧
  ∃ unpacked,
    unpack (Some <$> [9; 1; 1; 2; 3; 0; 6; 8]%Z) (Some 1) None = Normal unpacked ∧
    _polygonHierarchy unpacked = {| positions := Some [point 1 2 3]; holes := Some [] |} ∧
    packedLength unpacked = Some 6%Z.
Proof.
  assert (H2 : ∀ k v,
     encodeHierarchy {| positions := Some [point 1 2 3]; holes := None |} !! k = Some v →
     array_get (Some <$> [9; 1; 1; 2; 3; 0; 6; 8]%Z) (1 + k) = Some v).
  { intros k v Hk. do 5 (destruct k as [|k]; [exact Hk|]). discriminate Hk. }
  split; [exact Nat2Z.id|]. split; [exact H2|].
  exact (unpack_reads_layout {| positions := Some [point 1 2 3]; holes := None |}
           (Some <$> [9; 1; 1; 2; 3; 0; 6; 8]%Z) (Some 1) None Nat2Z.id H2).
Defined.

(** The rectangle and, from index 15 on, the hierarchy with holes. *)
Lemma pack_consecutive_witness :
  (∀ n, nat_of_num (num_of_nat n) = n) ∧
  consistent rectangle_instance ∧
  ∃ unpacked1 unpacked2,
    unpack (pack holed_instance (pack rectangle_instance [] (Some 0)) (Some 15)) (Some 0) None =
      Normal unpacked1 ∧
    _polygonHierarchy unpacked1 = with_arrays rectangle_hierarchy ∧
    packedLength unpacked1 = Some 15%Z ∧
    unpack (pack holed_instance (pack rectangle_instance [] (Some 0)) (Some 15)) (Some 15) None =
      Normal unpacked2 ∧
    _polygonHierarchy unpacked2 = with_arrays holed_hierarchy ∧
    packedLength unpacked2 = Some 33%Z.
Proof.
  split; [exact Nat2Z.id|]. split; [reflexivity|].
  exact (pack_consecutive rectangle_instance holed_instance [] 0 Nat2Z.id eq_refl).
Defined.

(** The rectangle closed by its first corner: the geometry is the one
    geometry that the sample [combineInstances] returns, with the bounding
    sphere of the five points. *)
Lemma createGeometry_first_combined_witness :
  ∃ g, fst (createGeometry closed_rectangle_instance) = Normal (Some g) ∧
       ∃ first rest,
         combineInstances
           (map (λ polygon, {| geometry := createGeometryFromPositions polygon |})
              (polygonOutlinesFromHierarchy
                 (_polygonHierarchy closed_rectangle_instance) false)) = first :: rest ∧
         g = {| attributes := attributes first;
                indices := indices first;
                primitiveType := primitiveType first;
                boundingSphere := Some (rectangle ++ [point 0 0 0]) |}.
Proof.
  eexists. split; [reflexivity|].
  apply (createGeometry_first_combined closed_rectangle_instance). reflexivity.
Defined.

(** The rectangle packed at index 1 and handed to the worker. *)
Lemma worker_on_packed_witness :
  (∀ n, nat_of_num (num_of_nat n) = n) ∧
  ∃ unpacked,
    _polygonHierarchy unpacked = with_arrays rectangle_hierarchy ∧
    createCoplanarPolygonOutlineGeometry
      (FromArray (pack rectangle_instance [Some 7%Z] (Some 1)) 1) =
      (fst (createGeometry unpacked),
       FromArray (pack rectangle_instance [Some 7%Z] (Some 1)) 1) ∧
    (has_arrays rectangle_hierarchy = true →
     fst (createGeometry unpacked) = fst (createGeometry rectangle_instance)).
Proof.
  split; [exact Nat2Z.id|].
  exact (worker_on_packed rectangle_instance [Some 7%Z] 1 Nat2Z.id).
Defined.

(** Three positions of which two are equal: two points are left. *)
Lemma short_ring_no_geometry_witness :
  arrayRemoveDuplicates (Some [point 0 0 0; point 0 0 0; point 0 0 1]) equalsEpsilon true =
    Some [point 0 0 0; point 0 0 1] ∧
  length [point 0 0 0; point 0 0 1] < 3 ∧
  ∃ value,
    fromPositions
      (Some {| opt_polygonHierarchy := None;
               opt_positions := Some [point 0 0 0; point 0 0 0; point 0 0 1] |}) =
      Normal value ∧
    createGeometry value = (Normal None, value) ∧
    fst (createCoplanarPolygonOutlineGeometry (FromInstance value)) = Normal None.
Proof.
  assert (H2 : length [point 0 0 0; point 0 0 1] < 3) by (simpl; lia).
  split; [reflexivity|]. split; [exact H2|].
  exact (short_ring_no_geometry [point 0 0 0; point 0 0 0; point 0 0 1]
           [point 0 0 0; point 0 0 1] None eq_refl H2).
Defined.

(** A ring of one point read from index 1, into a new instance and into an
    instance that has an [_ellipsoid] property. *)
Lemma unpack_result_witness :
  unpackPolygonHierarchy (Some <$> [9; 1; 1; 2; 3; 0; 6; 8]%Z) (defaultValue (Some 1) 0) =
    Some ({| positions := Some [point 1 2 3]; holes := Some [] |}, 6) ∧
  unpack (Some <$> [9; 1; 1; 2; 3; 0; 6; 8]%Z) (Some 1) None =
    Normal (instance_of {| positions := Some [point 1 2 3]; holes := Some [] |} 6) ∧
  ∃ unpacked,
    unpack (Some <$> [9; 1; 1; 2; 3; 0; 6; 8]%Z) (Some 1)
      (Some (set_ellipsoid (Some tt) rectangle_instance)) = Normal unpacked ∧
    _polygonHierarchy unpacked = {| positions := Some [point 1 2 3]; holes := Some [] |} ∧
    packedLength unpacked = Some 6%Z ∧
    _workerName unpacked = "createCoplanarPolygonOutlineGeometry" ∧
    _ellipsoid unpacked = Some (Some tt).
Proof.
  assert (H1 : unpackPolygonHierarchy (Some <$> [9; 1; 1; 2; 3; 0; 6; 8]%Z)
                 (defaultValue (Some 1) 0) =
               Some ({| positions := Some [point 1 2 3]; holes := Some [] |}, 6))
    by reflexivity.
  split; [exact H1|]. split; [reflexivity|].
  exact (unpack_result (Some <$> [9; 1; 1; 2; 3; 0; 6; 8]%Z) (Some 1) _ 6 H1
           (Some (set_ellipsoid (Some tt) rectangle_instance))).
Defined.

(** ** The claims that fail as they are worded *)

(** C3, as the claim words it, fails: the constructor accepts a hierarchy
    that has no [positions] (the one of [scratchOptions]), and on that
    instance [createGeometry] throws, reading the [length] of the
    [undefined] that the deduplication returns for it; the instance is as
    it was. *)
Lemma createGeometry_undefined_iff_counterexample :
  new_CoplanarPolygonOutlineGeometry (Some scratchOptions) =
    Normal (instance_of {| positions := None; holes := None |} 3) ∧
  createGeometry (instance_of {| positions := None; holes := None |} 3) =
    (Throw (TypeError "outerPositions is undefined"),
     instance_of {| positions := None; holes := None |} 3) ∧
  ¬ ∃ r, fst (createGeometry (instance_of {| positions := None; holes := None |} 3)) =
         Normal r.
Proof.
  split; [reflexivity|]. split; [reflexivity|]. intros [r Hr]. discriminate Hr.
Qed.

(** C10, as the claim words it, fails: [unpack] takes [packedLength] from
    the array, here 2 for a ring of one point, and [pack] of that instance
    writes the six numbers of its hierarchy and length, so the element at
    index 3, outside of the two elements from the starting index 0, is
    written. *)
Lemma pack_frame_counterexample :
  unpack (Some <$> [1; 1; 2; 3; 0; 2]%Z) (Some 0) None =
    Normal (instance_of {| positions := Some [point 1 2 3]; holes := Some [] |} 2) ∧
  ¬ (0 ≤ 3 < 0 + packedLength_nat
                   (instance_of {| positions := Some [point 1 2 3]; holes := Some [] |} 2)) ∧
  array_get (replicate 8 (Some 9%Z)) 3 = Some 9%Z ∧
  array_get (pack (instance_of {| positions := Some [point 1 2 3]; holes := Some [] |} 2)
               (replicate 8 (Some 9%Z)) (Some 0)) 3 = Some 3%Z ∧
  array_get (pack (instance_of {| positions := Some [point 1 2 3]; holes := Some [] |} 2)
               (replicate 8 (Some 9%Z)) (Some 0)) 3 ≠
  array_get (replicate 8 (Some 9%Z)) 3.
Proof.
  split; [reflexivity|]. split; [vm_compute; lia|]. split; [reflexivity|].
  split; [reflexivity|]. discriminate.
Qed.
